(** * FJE-PLUS: the Funny JSON Explorer, [fje_plus.py]

    A shallow embedding of the component tree, the tree builder, the two
    drawing styles, the component iterator and [display_tree], with the
    properties of the specification stated over them. *)

From Stdlib Require Import String Ascii ZArith DecimalString Bool Lia List.
Import ListNotations.

Set Warnings "-register-all".

Local Open Scope string_scope.
Local Open Scope list_scope.
Local Open Scope Z_scope.

(** ** Python values *)

(** A Python [str] is a sequence of Unicode code points; [len] counts code
    points, which matters for the box-drawing glyphs. *)
Definition str := list N.

(** An ASCII literal of the source, as a [str]. *)
Definition lit (s : string) : str := map N_of_ascii (list_ascii_of_string s).

Definition len {A : Type} (l : list A) : Z := Z.of_nat (length l).

Fixpoint str_eqb (a b : str) : bool :=
  match a, b with
  | [], [] => true
  | x :: a', y :: b' => N.eqb x y && str_eqb a' b'
  | _, _ => false
  end.

(** [s * n] on a [str]: a count below one gives the empty string. *)
Definition str_mul (s : str) (n : Z) : str :=
  if n <=? 0 then [] else concat (repeat s (Z.to_nat n)).

(** What [json.load] returns.  A [dict] keeps its items in insertion order; a
    float is carried as its binary64 pattern, the program never computes
    with it. *)
Inductive json : Type :=
| JNull
| JBool (b : bool)
| JInt (n : Z)
| JFloat (bits : Z)
| JStr (s : str)
| JArr (items : list json)
| JObj (items : list (str * json)).

Definition is_dict (v : json) : bool :=
  match v with JObj _ => true | _ => false end.

Definition is_list (v : json) : bool :=
  match v with JArr _ => true | _ => false end.

(** The exceptions the program can run into. *)
Inductive exn : Type :=
| IndexError
| KeyError (key : str)
| TypeError
| AttributeError.

Inductive result (A : Type) : Type :=
| Ok (a : A)
| Raise (e : exn).
Arguments Ok {A} a.
Arguments Raise {A} e.

Definition rbind {A B : Type} (r : result A) (k : A -> result B) : result B :=
  match r with
  | Ok a => k a
  | Raise e => Raise e
  end.

(** [d[k]] on a dict held as its items. *)
Fixpoint getitem {V : Type} (d : list (str * V)) (k : str) : result V :=
  match d with
  | [] => Raise (KeyError k)
  | (k', v) :: rest => if str_eqb k' k then Ok v else getitem rest k
  end.

(** [len(x)]: defined on [str], [list] and [dict], a [TypeError] on [None],
    [bool], [int] and [float]. *)
Definition py_len (v : json) : result Z :=
  match v with
  | JStr s => Ok (len s)
  | JArr items => Ok (len items)
  | JObj items => Ok (len items)
  | _ => Raise TypeError
  end.

(** A loop [for x in xs] whose body yields one value per round, collected in
    order; the first exception ends it. *)
Fixpoint for_each {A B : Type} (body : A -> result B) (xs : list A)
  : result (list B) :=
  match xs with
  | [] => Ok []
  | x :: rest =>
      rbind (body x) (fun b => rbind (for_each body rest) (fun bs => Ok (b :: bs)))
  end.

(** ** Components *)

(** The icon family a factory loads: role name to glyph, the glyphs being
    strings. *)
Definition GlyphSet := list (str * str).

(** The four concrete [Component] classes.  A container's name is a dict key;
    a leaf's name is whatever [create_leaf] was given, a [str] or a raw JSON
    item. *)
Inductive Component : Type :=
| TreeContainer (icons : GlyphSet) (name : str) (level : Z)
                (children : list Component)
| TreeLeaf (icons : GlyphSet) (name : json)
| RectangleContainer (icons : GlyphSet) (name : str) (level : Z)
                     (children : list Component)
| RectangleLeaf (icons : GlyphSet) (name : json).

Inductive Factory : Type :=
| TreeStyleFactory (icons : GlyphSet)
| RectangleStyleFactory (icons : GlyphSet).

Definition create_container (factory : Factory) (name : str) (level : Z)
                            (children : list Component) : Component :=
  match factory with
  | TreeStyleFactory icons => TreeContainer icons name level children
  | RectangleStyleFactory icons => RectangleContainer icons name level children
  end.

Definition create_leaf (factory : Factory) (name : json) : Component :=
  match factory with
  | TreeStyleFactory icons => TreeLeaf icons name
  | RectangleStyleFactory icons => RectangleLeaf icons name
  end.

Definition is_container (c : Component) : bool :=
  match c with
  | TreeContainer _ _ _ _ | RectangleContainer _ _ _ _ => true
  | _ => false
  end.

Definition children_of (c : Component) : list Component :=
  match c with
  | TreeContainer _ _ _ children | RectangleContainer _ _ _ children => children
  | _ => []
  end.

(** ** Printing computations *)

(** A computation that prints: the lines written to standard output, in
    order, and the value returned or the exception that ended it. *)
Definition M (A : Type) : Type := (list str * result A)%type.

Definition ret {A : Type} (a : A) : M A := ([], Ok a).

Definition bind {A B : Type} (m : M A) (k : A -> M B) : M B :=
  match m with
  | (out, Ok a) => let (out', r) := k a in (out ++ out', r)
  | (out, Raise e) => (out, Raise e)
  end.

Definition lift {A : Type} (r : result A) : M A := ([], r).

Definition print (line : str) : M unit := ([line], Ok tt).

Notation "x <- m ;; k" := (bind m (fun x => k))
  (at level 61, m at next level, right associativity).
Notation "m ;; k" := (bind m (fun _ => k))
  (at level 61, right associativity).

(** [for i, x in enumerate(xs)], the index starting at [i]. *)
Fixpoint for_enumerate {A : Type} (body : Z -> A -> M unit) (i : Z)
                       (xs : list A) : M unit :=
  match xs with
  | [] => ret tt
  | x :: rest => body i x ;; for_enumerate body (i + 1) rest
  end.

(** ** ComponentIterator *)

(** [stack.pop()]: the last element of the list. *)
Fixpoint pop {A : Type} (stack : list A) : option (A * list A) :=
  match stack with
  | [] => None
  | [x] => Some (x, [])
  | x :: rest =>
      match pop rest with
      | Some (top, rest') => Some (top, x :: rest')
      | None => None
      end
  end.

(** [__next__]: [None] stands for [StopIteration]; otherwise the component
    returned and the stack left behind. *)
Definition next (stack : list Component) : option (Component * list Component) :=
  match pop stack with
  | None => None
  | Some (current, stack') =>
      Some (current,
            if is_container current
            then stack' ++ rev (children_of current)
            else stack')
  end.

(** [list(ComponentIterator(root))], run for at most [fuel] calls of
    [__next__] that return a component. *)
Fixpoint iterate (fuel : nat) (stack : list Component)
  : option (list Component) :=
  match next stack with
  | None => Some []
  | Some (current, stack') =>
      match fuel with
      | O => None
      | S fuel' =>
          match iterate fuel' stack' with
          | Some rest => Some (current :: rest)
          | None => None
          end
      end
  end.

(** ** Measures and reference orders *)

(** [list(data.keys())[0]]. *)
Definition first_key {V : Type} (items : list (str * V)) : result str :=
  match items with
  | [] => Raise IndexError
  | (key, _) :: _ => Ok key
  end.

Fixpoint node_count (c : Component) : nat :=
  match c with
  | TreeContainer _ _ _ children | RectangleContainer _ _ _ children =>
      S (list_sum (map node_count children))
  | _ => 1%nat
  end.

Fixpoint leaf_count (c : Component) : nat :=
  match c with
  | TreeContainer _ _ _ children | RectangleContainer _ _ _ children =>
      list_sum (map leaf_count children)
  | _ => 1%nat
  end.

(** Left-to-right pre-order: the node, then each child's sequence in stored
    order. *)
Fixpoint preorder (c : Component) : list Component :=
  c :: match c with
       | TreeContainer _ _ _ children | RectangleContainer _ _ _ children =>
           flat_map preorder children
       | _ => []
       end.

(** The terminal values of a document: everything that is neither a dict nor
    a list. *)
Fixpoint scalar_count (v : json) : nat :=
  match v with
  | JArr items => list_sum (map scalar_count items)
  | JObj items => list_sum (map (fun kv => scalar_count (snd kv)) items)
  | _ => 1%nat
  end.

(** The glyph of a role, when the icon family has it. *)
Definition glyph (icons : GlyphSet) (role : string) : str :=
  match getitem icons (lit role) with
  | Ok g => g
  | Raise _ => []
  end.

Definition has_role (icons : GlyphSet) (role : string) : bool :=
  match getitem icons (lit role) with
  | Ok _ => true
  | Raise _ => false
  end.

Definition tree_roles : list string :=
  ["last_branch_icon"; "branch_icon"; "vertical_line"; "leaf_icon";
   "leaf_prefix"].

Definition rectangle_roles : list string :=
  ["top_left_corner"; "top_right_corner"; "bottom_left_corner";
   "bottom_right_corner"; "horizontal_line"; "vertical_line";
   "left_branch_icon"; "branch_icon"; "leaf_icon"].

(** The icon family has every role of the list. *)
Definition complete (icons : GlyphSet) (roles : list string) : bool :=
  forallb (has_role icons) roles.

Definition has_len (v : json) : bool :=
  match py_len v with
  | Ok _ => true
  | Raise _ => false
  end.

(** Nothing but widths can be wrong with the component: every node has the
    glyphs of its class, and the name of every Rectangle leaf has a length. *)
Fixpoint drawable (c : Component) : bool :=
  match c with
  | TreeContainer icons _ _ children =>
      complete icons tree_roles && forallb drawable children
  | TreeLeaf icons _ => complete icons tree_roles
  | RectangleContainer icons _ _ children =>
      complete icons rectangle_roles && forallb drawable children
  | RectangleLeaf icons name => complete icons rectangle_roles && has_len name
  end.

(** Running a list of printing computations one after the other. *)
Fixpoint sequence (ms : list (M unit)) : M unit :=
  match ms with
  | [] => ret tt
  | m :: rest => m ;; sequence rest
  end.


(** The four lines of the Rectangle style. *)
Definition top_edge (icons : GlyphSet) (indent name : str) : str :=
  indent ++ glyph icons "top_left_corner" ++ name
    ++ str_mul (glyph icons "horizontal_line") (33 - len indent)
    ++ glyph icons "top_right_corner".

Definition branch_edge (icons : GlyphSet) (indent name : str) : str :=
  indent ++ glyph icons "branch_icon" ++ name
    ++ str_mul (glyph icons "horizontal_line") (40 - len indent - len name - 2)
    ++ glyph icons "left_branch_icon".

Definition bottom_edge (icons : GlyphSet) (indent : str) : str :=
  indent ++ glyph icons "bottom_left_corner"
    ++ str_mul (glyph icons "horizontal_line") (40 - len indent)
    ++ glyph icons "bottom_right_corner".

Definition leaf_line (icons : GlyphSet) (indent name : str) (name_len : Z)
  : str :=
  indent ++ glyph icons "leaf_icon" ++ lit " " ++ name
    ++ str_mul (glyph icons "horizontal_line") (40 - len indent - name_len - 3)
    ++ glyph icons "left_branch_icon".

(** Induction over a document and, with it, over the items of its arrays and
    the values of its dicts. *)
Section JsonInduction.
Variable P : json -> Prop.
Hypothesis null_case : P JNull.
Hypothesis bool_case : forall b, P (JBool b).
Hypothesis int_case : forall n, P (JInt n).
Hypothesis float_case : forall bits, P (JFloat bits).
Hypothesis str_case : forall s, P (JStr s).
Hypothesis list_case : forall items, Forall P items -> P (JArr items).
Hypothesis dict_case : forall items,
    Forall (fun kv => P (snd kv)) items -> P (JObj items).

Fixpoint json_nested_ind (v : json) : P v :=
  match v with
  | JNull => null_case
  | JBool b => bool_case b
  | JInt n => int_case n
  | JFloat bits => float_case bits
  | JStr s => str_case s
  | JArr items =>
      list_case items
        ((fix all (vs : list json) : Forall P vs :=
            match vs with
            | [] => Forall_nil P
            | item :: rest =>
                Forall_cons item (json_nested_ind item) (all rest)
            end) items)
  | JObj items =>
      dict_case items
        ((fix all (kvs : list (str * json))
           : Forall (fun kv => P (snd kv)) kvs :=
            match kvs with
            | [] => Forall_nil _
            | kv :: rest =>
                Forall_cons kv (json_nested_ind (snd kv)) (all rest)
            end) items)
  end.
End JsonInduction.

(** A value below which [build_tree] meets no dict without a key as an array
    item. *)
Fixpoint buildable (value : json) : bool :=
  match value with
  | JObj items => forallb (fun kv => buildable (snd kv)) items
  | JArr items =>
      forallb (fun item =>
                 match item with
                 | JObj [] => false
                 | JObj ((_, value') :: _) => buildable value'
                 | _ => true
                 end) items
  | _ => true
  end.

(** An array item that [build_tree] can take: anything but the dict without
    a key; of a dict only the first value is looked at. *)
Definition item_ok (item : json) : bool :=
  match item with
  | JObj [] => false
  | JObj ((_, value) :: _) => buildable value
  | _ => true
  end.

(** A value in which every array item is a scalar or a dict with exactly one
    key: the documents [build_tree] maps node for node. *)
Fixpoint regular (value : json) : bool :=
  match value with
  | JObj items => forallb (fun kv => regular (snd kv)) items
  | JArr items =>
      forallb (fun item =>
                 match item with
                 | JObj [(_, value')] => regular value'
                 | JObj _ | JArr _ => false
                 | _ => true
                 end) items
  | _ => true
  end.

Definition regular_item (item : json) : bool :=
  match item with
  | JObj [(_, value)] => regular value
  | JObj _ | JArr _ => false
  | _ => true
  end.

(** Induction over a component and, with it, over each of its children. *)
Section ComponentInduction.
Variable P : Component -> Prop.
Hypothesis tree_container_case : forall icons name level children,
    Forall P children -> P (TreeContainer icons name level children).
Hypothesis tree_leaf_case : forall icons name, P (TreeLeaf icons name).
Hypothesis rectangle_container_case : forall icons name level children,
    Forall P children -> P (RectangleContainer icons name level children).
Hypothesis rectangle_leaf_case : forall icons name,
    P (RectangleLeaf icons name).

Fixpoint Component_nested_ind (c : Component) : P c :=
  let all := fix all (cs : list Component) : Forall P cs :=
               match cs with
               | [] => Forall_nil P
               | child :: rest =>
                   Forall_cons child (Component_nested_ind child) (all rest)
               end in
  match c with
  | TreeContainer icons name level children =>
      tree_container_case icons name level children (all children)
  | TreeLeaf icons name => tree_leaf_case icons name
  | RectangleContainer icons name level children =>
      rectangle_container_case icons name level children (all children)
  | RectangleLeaf icons name => rectangle_leaf_case icons name
  end.
End ComponentInduction.

(** ** Sample data *)

(** [str()] on [None], a [bool] and an [int]; the samples use no other
    non-string scalar. *)
Definition str_of_scalar (v : json) : str :=
  match v with
  | JNull => lit "None"
  | JBool true => lit "True"
  | JBool false => lit "False"
  | JInt n => lit (NilZero.string_of_int (Z.to_int n))
  | _ => []
  end.

(** A Tree-style icon family. *)
Definition tree_icons : GlyphSet :=
  [(lit "last_branch_icon", [9492; 9472; 9472]%N);
   (lit "branch_icon", [9500; 9472; 9472]%N);
   (lit "vertical_line", [9474]%N);
   (lit "leaf_icon", [9500; 9472; 9472]%N);
   (lit "leaf_prefix", [9492; 9472; 9472]%N)].

(** A Rectangle-style icon family. *)
Definition rectangle_icons : GlyphSet :=
  [(lit "top_left_corner", [9484]%N);
   (lit "top_right_corner", [9488]%N);
   (lit "bottom_left_corner", [9492]%N);
   (lit "bottom_right_corner", [9496]%N);
   (lit "horizontal_line", [9472]%N);
   (lit "vertical_line", [9474]%N);
   (lit "left_branch_icon", [9508]%N);
   (lit "branch_icon", [9500]%N);
   (lit "leaf_icon", [9500]%N)].

(** [{"a": "b"}] *)
Definition single_item : list (str * json) := [(lit "a", JStr (lit "b"))].

(** [{"a": 1}], [{"a": [1, 2]}] and [{"a": {}}], the scenarios of the
    specification. *)
Definition scenario_1 : list (str * json) := [(lit "a", JInt 1)].
Definition scenario_2 : list (str * json) := [(lit "a", JArr [JInt 1; JInt 2])].
Definition scenario_3 : list (str * json) := [(lit "a", JObj [])].

(** [{"x": "1", "y": {"z": "w"}}] *)
Definition sample_items : list (str * json) :=
  [(lit "x", JStr (lit "1"));
   (lit "y", JObj [(lit "z", JStr (lit "w"))])].

(** The two roots a Rectangle factory builds from [sample_items]. *)
Definition sample_first_root : Component :=
  RectangleContainer rectangle_icons (lit "x") 0
    [RectangleLeaf rectangle_icons (JStr (lit "x: 1"))].

Definition sample_last_root : Component :=
  RectangleContainer rectangle_icons (lit "y") 0
    [RectangleLeaf rectangle_icons (JStr (lit "z: w"))].

(** [{"a": [{"x": 1, "y": 2}]}]: an array item with two keys. *)
Definition two_key_item : list (str * json) :=
  [(lit "a", JArr [JObj [(lit "x", JInt 1); (lit "y", JInt 2)]])].

(** [{"a": [[1, 2]]}]: an array inside an array. *)
Definition nested_array : list (str * json) :=
  [(lit "a", JArr [JArr [JInt 1; JInt 2]])].

(** A Rectangle leaf and a Rectangle container too wide for the box. *)
Definition wide_leaf : Component :=
  RectangleLeaf rectangle_icons (JStr (repeat 97%N 50)).

Definition wide_container : Component :=
  RectangleContainer rectangle_icons (repeat 98%N 45) 0 [wide_leaf].

(** ** Invariants of a built tree *)

(** Every node of the component is an instance of the factory's classes, with
    the factory's icons. *)
Inductive made_by (factory : Factory) : Component -> Prop :=
| made_container name level children :
    Forall (made_by factory) children ->
    made_by factory (create_container factory name level children)
| made_leaf name : made_by factory (create_leaf factory name).

(** The container levels count the depth from [level] on. *)
Fixpoint levelled (level : Z) (c : Component) : bool :=
  match c with
  | TreeContainer _ _ l children | RectangleContainer _ _ l children =>
      (l =? level) && forallb (levelled (level + 1)) children
  | _ => true
  end.

(** The values that [build_tree] turns into leaf names as they are, the
    array items that are neither dicts nor the first value of one, all pass
    [ok]. *)
Fixpoint raw_names_ok (ok : json -> bool) (value : json) : bool :=
  match value with
  | JObj items => forallb (fun kv => raw_names_ok ok (snd kv)) items
  | JArr items =>
      forallb (fun item =>
                 match item with
                 | JObj [] => true
                 | JObj ((_, value') :: _) => raw_names_ok ok value'
                 | _ => ok item
                 end) items
  | _ => true
  end.

Definition raw_item_ok (ok : json -> bool) (item : json) : bool :=
  match item with
  | JObj [] => true
  | JObj ((_, value) :: _) => raw_names_ok ok value
  | _ => ok item
  end.

(** The glyphs [RectangleContainer.draw] reads before it prints. *)
Definition rectangle_container_roles : list string :=
  ["top_left_corner"; "top_right_corner"; "bottom_left_corner";
   "bottom_right_corner"; "horizontal_line"; "vertical_line";
   "left_branch_icon"; "branch_icon"].

(** Every Rectangle glyph is one code point wide. *)
Definition unit_glyphs (icons : GlyphSet) : bool :=
  forallb (fun role => len (glyph icons role) =? 1) rectangle_roles.

(** A Rectangle component whose lines fit the forty columns when it is drawn
    [used] columns in: string names, complete one-column glyphs, and room
    for every name at its depth. *)
Fixpoint in_box (used : Z) (c : Component) : bool :=
  match c with
  | RectangleContainer icons name _ children =>
      complete icons rectangle_roles && unit_glyphs icons
      && (used + len name + 2 <=? 40)
      && forallb (in_box (used + 2)) children
  | RectangleLeaf icons (JStr s) =>
      complete icons rectangle_roles && unit_glyphs icons
      && (used + len s + 3 <=? 40)
  | _ => false
  end.

(** A Tree-style component all of whose nodes have the five Tree glyphs. *)
Fixpoint tree_ready (c : Component) : bool :=
  match c with
  | TreeContainer icons _ _ children =>
      complete icons tree_roles && forallb tree_ready children
  | TreeLeaf icons _ => complete icons tree_roles
  | _ => false
  end.

(** The component with every container level replaced through [f]. *)
Fixpoint relevel (f : Z -> Z) (c : Component) : Component :=
  match c with
  | TreeContainer icons name level children =>
      TreeContainer icons name (f level) (map (relevel f) children)
  | RectangleContainer icons name level children =>
      RectangleContainer icons name (f level) (map (relevel f) children)
  | _ => c
  end.

Definition is_leaf (c : Component) : bool := negb (is_container c).

(** The two roots a Tree factory builds from [sample_items]. *)
Definition sample_tree_first_root : Component :=
  TreeContainer tree_icons (lit "x") 0
    [TreeLeaf tree_icons (JStr (lit "x: 1"))].

Definition sample_tree_last_root : Component :=
  TreeContainer tree_icons (lit "y") 0
    [TreeLeaf tree_icons (JStr (lit "z: w"))].

(** [{"a": {"b": [{"c": 1}]}}]: containers three levels deep. *)
Definition deep_document : json :=
  JObj [(lit "a", JObj [(lit "b", JArr [JObj [(lit "c", JInt 1)]])])].

(** [{"a": [{}]}]: the dict without a key as an array item. *)
Definition empty_dict_item : list (str * json) :=
  [(lit "a", JArr [JObj []])].

(** A Tree-style icon family without [vertical_line]. *)
Definition no_vertical_line : GlyphSet :=
  [(lit "last_branch_icon", [9492; 9472; 9472]%N);
   (lit "branch_icon", [9500; 9472; 9472]%N);
   (lit "leaf_icon", [9500; 9472; 9472]%N);
   (lit "leaf_prefix", [9492; 9472; 9472]%N)].

(** A Rectangle-style icon family without the bottom corners. *)
Definition no_bottom_corners : GlyphSet :=
  [(lit "top_left_corner", [9484]%N);
   (lit "top_right_corner", [9488]%N);
   (lit "horizontal_line", [9472]%N);
   (lit "vertical_line", [9474]%N);
   (lit "left_branch_icon", [9508]%N);
   (lit "branch_icon", [9500]%N);
   (lit "leaf_icon", [9500]%N)].

Section Program.

(** Python's built-in [str(v)] for a value that is not a [str] ([None], a
    [bool], a number, a [list], a [dict]); it belongs to the interpreter,
    not to the repository. *)
Variable py_str : json -> str.

(** [f"{v}"]. *)
Definition format_value (v : json) : str :=
  match v with
  | JStr s => s
  | _ => py_str v
  end.

(** ** build_tree *)

(** [build_entry key value level] is the body of [build_tree] once
    [key = list(data.keys())[0]] and [value = data[key]] are bound: the
    container is created, filled by one of the three branches and returned;
    [container.add] appends, so the children stand in the order of the loop.
    [build_tree] on [{subkey: subvalue}] is [build_entry subkey subvalue]. *)
Fixpoint build_tree (data : json) (factory : Factory) (level : Z) {struct data}
  : result Component :=
  match data with
  | JObj [] => Raise IndexError
  | JObj ((key, value) :: _) => build_entry key value factory level
  | _ => Ok (create_leaf factory data)
  end
with build_entry (key : str) (value : json) (factory : Factory) (level : Z)
                 {struct value} : result Component :=
  match value with
  | JObj items =>
      rbind (for_each
               (fun kv : str * json =>
                  let (subkey, subvalue) := kv in
                  if is_dict subvalue || is_list subvalue
                  then build_entry subkey subvalue factory (level + 1)
                  else Ok (create_leaf factory
                             (JStr (subkey ++ lit ": " ++ format_value subvalue))))
               items)
            (fun children => Ok (create_container factory key level children))
  | JArr items =>
      rbind (for_each
               (fun item : json =>
                  if is_dict item || is_list item
                  then build_tree item factory (level + 1)
                  else Ok (create_leaf factory item))
               items)
            (fun children => Ok (create_container factory key level children))
  | _ =>
      Ok (create_container factory key level
            [create_leaf factory (JStr (key ++ lit ": " ++ format_value value))])
  end.


(** ** Drawing *)

(** The default of [is_top] in the [draw] of the component's class. *)
Definition default_is_top (c : Component) : bool :=
  match c with
  | RectangleContainer _ _ _ _ => false
  | _ => true
  end.

Fixpoint draw (c : Component) (indent : str) (is_last is_top is_bottom : bool)
  {struct c} : M unit :=
  match c with
  | TreeContainer icons name level children =>
      branch_icon <- lift (if is_last then getitem icons (lit "last_branch_icon")
                           else getitem icons (lit "branch_icon")) ;;
      print (indent ++ branch_icon ++ lit " " ++ name) ;;
      tail <- (if is_last then ret (lit "   ")
               else vertical_line <- lift (getitem icons (lit "vertical_line")) ;;
                    ret (vertical_line ++ lit "  ")) ;;
      let new_indent := indent ++ tail in
      for_enumerate
        (fun i child =>
           let is_last_child := i =? len children - 1 in
           draw child new_indent is_last_child (default_is_top child) false)
        0 children
  | TreeLeaf icons name =>
      leaf_icon <- lift (getitem icons (lit "leaf_icon")) ;;
      leaf_prefix <- lift (getitem icons (lit "leaf_prefix")) ;;
      print (indent ++ (if is_last then leaf_prefix else leaf_icon)
                    ++ lit " " ++ format_value name)
  | RectangleContainer icons name level children =>
      top_left_corner <- lift (getitem icons (lit "top_left_corner")) ;;
      top_right_corner <- lift (getitem icons (lit "top_right_corner")) ;;
      bottom_left_corner <- lift (getitem icons (lit "bottom_left_corner")) ;;
      bottom_right_corner <- lift (getitem icons (lit "bottom_right_corner")) ;;
      horizontal_line <- lift (getitem icons (lit "horizontal_line")) ;;
      vertical_line <- lift (getitem icons (lit "vertical_line")) ;;
      left_branch_icon <- lift (getitem icons (lit "left_branch_icon")) ;;
      branch_icon <- lift (getitem icons (lit "branch_icon")) ;;
      (if is_top
       then print (indent ++ top_left_corner ++ name
                     ++ str_mul horizontal_line (33 - len indent)
                     ++ top_right_corner)
       else print (indent ++ branch_icon ++ name
                     ++ str_mul horizontal_line (40 - len indent - len name - 2)
                     ++ left_branch_icon)) ;;
      let new_indent := indent ++ vertical_line ++ lit " " in
      for_enumerate
        (fun i child =>
           let is_last_child := i =? len children - 1 in
           draw child new_indent is_last_child false false)
        0 children ;;
      (if is_bottom
       then print (indent ++ bottom_left_corner
                     ++ str_mul horizontal_line (40 - len indent)
                     ++ bottom_right_corner)
       else ret tt)
  | RectangleLeaf icons name =>
      leaf_icon <- lift (getitem icons (lit "leaf_icon")) ;;
      horizontal_line <- lift (getitem icons (lit "horizontal_line")) ;;
      left_branch_icon <- lift (getitem icons (lit "left_branch_icon")) ;;
      name_len <- lift (py_len name) ;;
      print (indent ++ leaf_icon ++ lit " " ++ format_value name
               ++ str_mul horizontal_line (40 - len indent - name_len - 3)
               ++ left_branch_icon)
  end.

(** [component.accept(DrawVisitor())]: the visitor calls [component.draw()]
    with every argument at its default. *)
Definition accept (c : Component) : M unit :=
  draw c [] true (default_is_top c) false.

(** ** display_tree *)

(** The first loop of [display_tree]: one tree per top-level item. *)
Definition build_forest (items : list (str * json)) (factory : Factory)
  : result (list Component) :=
  for_each (fun kv : str * json =>
              let (key, value) := kv in
              build_tree (JObj [(key, value)]) factory 0)
           items.

Definition is_rectangle_factory (factory : Factory) : bool :=
  match factory with
  | RectangleStyleFactory _ => true
  | TreeStyleFactory _ => false
  end.

(** [display_tree] from the parsed document on.  [data.items()] exists on a
    dict only.  The [ComponentIterator] made for each root is never advanced
    and leaves no trace. *)
Definition display_tree (data : json) (style_factory : Factory) : M unit :=
  match data with
  | JObj items =>
      tree <- lift (build_forest items style_factory) ;;
      for_enumerate
        (fun i subtree =>
           let is_last_tree := i =? len tree - 1 in
           accept subtree ;;
           if is_last_tree && is_rectangle_factory style_factory
           then draw subtree [] true (default_is_top subtree) true
           else ret tt)
        0 tree
  | _ => lift (Raise AttributeError)
  end.


(** ** What the specification says of a built container's children *)



(** The text a node is drawn with: a container's key, a leaf's formatted
    name. *)
Definition name_text (c : Component) : str :=
  match c with
  | TreeContainer _ name _ _ | RectangleContainer _ name _ _ => name
  | TreeLeaf _ name | RectangleLeaf _ name => format_value name
  end.

(** * Properties *)

(** ** Dicts and loops *)

Lemma str_eqb_refl (a : str) : str_eqb a a = true.
Proof.
  induction a as [|x a IH]; simpl; [reflexivity|].
  now rewrite N.eqb_refl, IH.
Qed.

(** [data[list(data.keys())[0]]] is the value of the first item. *)
Lemma getitem_first_key {V : Type} (key : str) (value : V) rest :
  rbind (first_key ((key, value) :: rest)) (getitem ((key, value) :: rest))
  = Ok value.
Proof. simpl. now rewrite str_eqb_refl. Qed.

Lemma for_each_Ok {A B : Type} (body : A -> result B) xs ys :
  for_each body xs = Ok ys <-> Forall2 (fun x y => body x = Ok y) xs ys.
Proof.
  revert ys; induction xs as [|x xs IH]; intros ys; simpl.
  - split; intros H.
    + injection H as <-. constructor.
    + inversion H. reflexivity.
  - split; intros H.
    + destruct (body x) as [b|e] eqn:Hb; simpl in H; [|discriminate].
      destruct (for_each body xs) as [bs|e] eqn:Hbs; simpl in H; [|discriminate].
      injection H as <-. constructor; [assumption|]. now apply IH.
    + inversion H as [|? y ? ys' Hb Hrest]; subst.
      rewrite Hb; simpl. apply IH in Hrest. now rewrite Hrest.
Qed.

(** The dict case of [build_tree], as the source writes it: first key, its
    value, then the body. *)
Lemma build_tree_dict items factory level :
  build_tree (JObj items) factory level
  = rbind (first_key items) (fun key =>
      rbind (getitem items key) (fun value =>
        build_entry key value factory level)).
Proof.
  destruct items as [|[key value] rest]; simpl; [reflexivity|].
  now rewrite str_eqb_refl.
Qed.

(** ** build_tree *)

(** C9: a dict with more than one key, handed to [build_tree] as it is, is
    built from its first key alone; the tree is the one of the single-key
    dict [{key: value}], whatever the other items are. *)
Theorem build_tree_first_key_only key value other rest factory level :
  build_tree (JObj ((key, value) :: other :: rest)) factory level
  = build_tree (JObj [(key, value)]) factory level.
Proof.
  rewrite !build_tree_dict. simpl. now rewrite str_eqb_refl.
Qed.

(** C4: on a dict with no key [build_tree] does not return a container: taking
    the first key raises [IndexError], and so does [display_tree] on a
    document that has such a dict as an array item. *)
Theorem build_tree_empty_dict_raises :
  (forall factory level, build_tree (JObj []) factory level = Raise IndexError)
  /\ (forall factory,
        display_tree (JObj [(lit "a", JArr [JObj []])]) factory
        = ([], Raise IndexError)).
Proof.
  split; [reflexivity|]. intros factory. reflexivity.
Qed.


(** ** ComponentIterator *)

Lemma pop_last {A : Type} (stack : list A) (top : A) :
  pop (stack ++ [top]) = Some (top, stack).
Proof.
  induction stack as [|x stack IH]; [reflexivity|].
  change ((x :: stack) ++ [top]) with (x :: (stack ++ [top])).
  simpl. rewrite IH. destruct (stack ++ [top]) eqn:E; [|reflexivity].
  now destruct stack.
Qed.

Lemma next_last (stack : list Component) (current : Component) :
  next (stack ++ [current])
  = Some (current,
          if is_container current
          then stack ++ rev (children_of current)
          else stack).
Proof. unfold next. now rewrite pop_last. Qed.

Lemma iterate_step (fuel : nat) (stack : list Component) :
  iterate (S fuel) stack
  = match next stack with
    | None => Some []
    | Some (current, stack') =>
        match iterate fuel stack' with
        | Some rest => Some (current :: rest)
        | None => None
        end
    end.
Proof. reflexivity. Qed.

Lemma preorder_children (c : Component) :
  preorder c = c :: flat_map preorder (children_of c).
Proof. now destruct c. Qed.

Lemma node_count_children (c : Component) :
  node_count c = S (list_sum (map node_count (children_of c))).
Proof. now destruct c. Qed.

Lemma children_of_leaf (c : Component) :
  is_container c = false -> children_of c = [].
Proof. now destruct c. Qed.

Lemma list_sum_rev (l : list nat) : list_sum (rev l) = list_sum l.
Proof.
  induction l as [|x l IH]; [reflexivity|].
  simpl. rewrite list_sum_app, IH. simpl. lia.
Qed.

Lemma stack_cases {A : Type} (stack : list A) :
  stack = [] \/ exists top rest, stack = rest ++ [top].
Proof.
  induction stack as [|top rest _] using rev_ind; [now left|].
  right. now exists top, rest.
Qed.

(** The iterator started on any stack yields the pre-order sequences of the
    stacked components, the top of the stack first. *)
Lemma iterate_stack (n : nat) :
  forall (stack : list Component) (fuel : nat),
    list_sum (map node_count stack) = n ->
    iterate (n + fuel) stack = Some (flat_map preorder (rev stack)).
Proof.
  induction n as [n IH] using lt_wf_ind. intros stack fuel Hn.
  destruct (stack_cases stack) as [-> | (current & rest & ->)].
  - destruct (n + fuel)%nat; reflexivity.
  - rewrite map_app, list_sum_app in Hn. simpl in Hn.
    rewrite node_count_children in Hn.
    destruct n as [|n']; [lia|].
    change (S n' + fuel)%nat with (S (n' + fuel)).
    rewrite iterate_step, next_last, rev_app_distr. simpl rev. simpl app.
    simpl flat_map. rewrite preorder_children. simpl app.
    assert (Hstack : list_sum
                       (map node_count (rest ++ rev (children_of current)))
                     = n').
    { rewrite map_app, list_sum_app, map_rev, list_sum_rev. lia. }
    destruct (is_container current) eqn:Hc.
    + rewrite (IH n' (Nat.lt_succ_diag_r n') _ fuel Hstack).
      now rewrite rev_app_distr, rev_involutive, flat_map_app.
    + rewrite (children_of_leaf _ Hc), app_nil_r in Hstack.
      rewrite (IH n' (Nat.lt_succ_diag_r n') _ fuel Hstack).
      now rewrite (children_of_leaf _ Hc).
Qed.

Lemma length_preorder (c : Component) :
  length (preorder c) = node_count c.
Proof.
  induction c as [icons name level children IH | |
                  icons name level children IH | ] using Component_nested_ind;
    try reflexivity;
    simpl; f_equal; induction IH as [|child rest Hc _ IHrest];
    try reflexivity; simpl; rewrite length_app; congruence.
Qed.

(** C8: the stack-based iterator started on [[root]] reaches [StopIteration]
    after yielding the left-to-right pre-order sequence of the tree, one
    yield per node. *)
Theorem iterator_yields_preorder (root : Component) (fuel : nat) :
  iterate (node_count root + fuel) [root] = Some (preorder root)
  /\ length (preorder root) = node_count root.
Proof.
  split; [|apply length_preorder].
  rewrite (iterate_stack (node_count root) [root] fuel).
  - simpl. now rewrite app_nil_r.
  - simpl. lia.
Qed.

(** ** Printing computations *)

Lemma bind_ret_l {A B : Type} (a : A) (k : A -> M B) :
  (x <- ret a ;; k x) = k a.
Proof. unfold bind, ret. now destruct (k a). Qed.

Lemma bind_lift_Ok {A B : Type} (a : A) (k : A -> M B) :
  (x <- lift (Ok a) ;; k x) = k a.
Proof. unfold bind, lift. now destruct (k a). Qed.

Lemma bind_ret_r (m : M unit) : (m ;; ret tt) = m.
Proof.
  destruct m as [out [[]|e]]; simpl; [|reflexivity]. now rewrite app_nil_r.
Qed.

Lemma bind_assoc {A B C : Type} (m : M A) (k : A -> M B) (h : B -> M C) :
  (y <- (x <- m ;; k x) ;; h y) = (x <- m ;; y <- k x ;; h y).
Proof.
  destruct m as [out [a|e]]; simpl; [|reflexivity].
  destruct (k a) as [out' [b|e]]; simpl; [|reflexivity].
  destruct (h b) as [out'' r]. now rewrite app_assoc.
Qed.

Lemma bind_unit_ext {B : Type} (m : M unit) (a b : M B) :
  a = b -> (m ;; a) = (m ;; b).
Proof. now intros ->. Qed.

Lemma snd_bind {A B : Type} (m : M A) (k : A -> M B) :
  snd (x <- m ;; k x)
  = match snd m with
    | Ok a => snd (k a)
    | Raise e => Raise e
    end.
Proof. destruct m as [out [a|e]]; simpl; [|reflexivity]. now destruct (k a). Qed.

Lemma fst_bind {A B : Type} (m : M A) (k : A -> M B) :
  fst (x <- m ;; k x)
  = match snd m with
    | Ok a => fst m ++ fst (k a)
    | Raise e => fst m
    end.
Proof. destruct m as [out [a|e]]; simpl; [|reflexivity]. now destruct (k a). Qed.

Lemma complete_getitem icons roles role :
  complete icons roles = true -> In role roles ->
  getitem icons (lit role) = Ok (glyph icons role).
Proof.
  unfold complete. rewrite forallb_forall. intros H Hin.
  specialize (H role Hin). unfold has_role, glyph in *.
  now destruct (getitem icons (lit role)).
Qed.

(** Rewrites every icon lookup of the goal to its glyph. *)
Ltac lookup H :=
  repeat match goal with
         | |- context [getitem ?icons (lit ?role)] =>
             rewrite (complete_getitem icons _ role H) by (simpl; tauto);
             rewrite bind_lift_Ok
         end.




Lemma for_enumerate_app {A : Type} (body : Z -> A -> M unit) xs ys :
  forall i,
    for_enumerate body i (xs ++ ys)
    = (for_enumerate body i xs ;; for_enumerate body (i + len xs) ys).
Proof.
  induction xs as [|x xs IH]; intros i.
  - change ([] ++ ys) with ys. cbn [for_enumerate].
    rewrite bind_ret_l. f_equal. unfold len. simpl. lia.
  - change ((x :: xs) ++ ys) with (x :: (xs ++ ys)). cbn [for_enumerate].
    rewrite IH, bind_assoc.
    replace (i + len (x :: xs)) with (i + 1 + len xs); [reflexivity|].
    unfold len. simpl length. lia.
Qed.

Lemma snd_for_enumerate {A : Type} (body : Z -> A -> M unit) xs :
  Forall (fun x => forall i, snd (body i x) = Ok tt) xs ->
  forall i, snd (for_enumerate body i xs) = Ok tt.
Proof.
  induction 1 as [|x xs Hx _ IH]; intros i; [reflexivity|].
  cbn [for_enumerate]. now rewrite snd_bind, Hx.
Qed.

(** ** Tree style *)

Lemma draw_tree_leaf icons name indent (is_last is_top is_bottom : bool) :
  complete icons tree_roles = true ->
  draw (TreeLeaf icons name) indent is_last is_top is_bottom
  = print (indent
             ++ (if is_last then glyph icons "leaf_prefix"
                 else glyph icons "leaf_icon")
             ++ lit " " ++ format_value name).
Proof. intros H. cbn [draw]. now lookup H. Qed.

Lemma draw_tree_container icons name level children indent
      (is_last is_top is_bottom : bool) :
  complete icons tree_roles = true ->
  draw (TreeContainer icons name level children) indent is_last is_top
       is_bottom
  = (print (indent
              ++ (if is_last then glyph icons "last_branch_icon"
                  else glyph icons "branch_icon")
              ++ lit " " ++ name) ;;
     for_enumerate
       (fun i child =>
          draw child
               (indent ++ (if is_last then lit "   "
                           else glyph icons "vertical_line" ++ lit "  "))
               (i =? len children - 1) (default_is_top child) false)
       0 children).
Proof.
  intros H. cbn [draw].
  destruct is_last; lookup H; apply bind_unit_ext; now rewrite bind_ret_l.
Qed.


(** ** Rectangle style *)

Lemma draw_rectangle_leaf icons name indent (is_last is_top is_bottom : bool) :
  complete icons rectangle_roles = true ->
  draw (RectangleLeaf icons name) indent is_last is_top is_bottom
  = (name_len <- lift (py_len name) ;;
     print (leaf_line icons indent (format_value name) name_len)).
Proof. intros H. cbn [draw]. now lookup H. Qed.

Lemma draw_rectangle_container icons name level children indent
      (is_last is_top is_bottom : bool) :
  complete icons rectangle_roles = true ->
  draw (RectangleContainer icons name level children) indent is_last is_top
       is_bottom
  = (print (if is_top then top_edge icons indent name
            else branch_edge icons indent name) ;;
     for_enumerate
       (fun i child =>
          draw child (indent ++ glyph icons "vertical_line" ++ lit " ")
               (i =? len children - 1) false false)
       0 children ;;
     (if is_bottom then print (bottom_edge icons indent) else ret tt)).
Proof. intros H. cbn [draw]. lookup H. now destruct is_top. Qed.

Lemma str_mul_clamp (s : str) (n : Z) : n <= 0 -> str_mul s n = [].
Proof. intros H. unfold str_mul. now destruct (Z.leb_spec n 0); [|lia]. Qed.

Lemma fst_print_bind {B : Type} (line : str) (k : M B) :
  fst (print line ;; k) = line :: fst k.
Proof. unfold bind, print. now destruct k. Qed.

Lemma Forall_drawable (P : Component -> Prop) children :
  Forall (fun c => drawable c = true -> P c) children ->
  forallb drawable children = true ->
  Forall P children.
Proof.
  intros IH Hd. rewrite forallb_forall in Hd. rewrite Forall_forall in *.
  intros c Hc. apply (IH c Hc), (Hd c Hc).
Qed.

(** A drawable component is drawn to the end, at any indent. *)
Lemma draw_succeeds (c : Component) :
  drawable c = true ->
  forall indent is_last is_top is_bottom,
    snd (draw c indent is_last is_top is_bottom) = Ok tt.
Proof.
  induction c as [icons name level children IH | icons name |
                  icons name level children IH | icons name]
                   using Component_nested_ind;
    cbn [drawable]; intros Hd indent is_last is_top is_bottom.
  - apply andb_prop in Hd as [H Hd].
    rewrite (draw_tree_container _ _ _ _ _ _ _ _ H), snd_bind. cbn [print snd].
    apply snd_for_enumerate.
    eapply Forall_impl; [|exact (Forall_drawable _ _ IH Hd)].
    intros child Hchild i. apply Hchild.
  - now rewrite (draw_tree_leaf _ _ _ _ _ _ Hd).
  - apply andb_prop in Hd as [H Hd].
    rewrite (draw_rectangle_container _ _ _ _ _ _ _ _ H), !snd_bind.
    cbn [print snd]. rewrite snd_for_enumerate; [now destruct is_bottom|].
    eapply Forall_impl; [|exact (Forall_drawable _ _ IH Hd)].
    intros child Hchild i. apply Hchild.
  - apply andb_prop in Hd as [H Hd].
    rewrite (draw_rectangle_leaf _ _ _ _ _ _ H). unfold has_len in Hd.
    now destruct (py_len name).
Qed.

(** C7: a Rectangle-style draw whose repeat count is negative puts no
    horizontal glyph on the line and goes on: whatever the width of the
    indent and of the names, a drawable component is drawn to the end, and
    the top edge, the branch edge, the leaf line and the bottom edge of a
    negative count are the line without its run of [horizontal_line]. *)
Theorem rectangle_draw_clamps_width (c : Component) indent
        (is_last is_top is_bottom : bool) :
  drawable c = true ->
  snd (draw c indent is_last is_top is_bottom) = Ok tt
  /\ match c with
     | RectangleContainer icons name _ _ =>
         (is_top = true -> 33 - len indent < 0 ->
          hd_error (fst (draw c indent is_last is_top is_bottom))
          = Some (indent ++ glyph icons "top_left_corner" ++ name
                         ++ glyph icons "top_right_corner"))
         /\ (is_top = false -> 40 - len indent - len name - 2 < 0 ->
             hd_error (fst (draw c indent is_last is_top is_bottom))
             = Some (indent ++ glyph icons "branch_icon" ++ name
                            ++ glyph icons "left_branch_icon"))
         /\ (is_bottom = true -> 40 - len indent < 0 ->
             last (fst (draw c indent is_last is_top is_bottom)) []
             = indent ++ glyph icons "bottom_left_corner"
                      ++ glyph icons "bottom_right_corner")
     | RectangleLeaf icons name =>
         forall name_len,
           py_len name = Ok name_len ->
           40 - len indent - name_len - 3 < 0 ->
           fst (draw c indent is_last is_top is_bottom)
           = [indent ++ glyph icons "leaf_icon" ++ lit " "
                     ++ format_value name ++ glyph icons "left_branch_icon"]
     | _ => True
     end.
Proof.
  intros Hd. split; [now apply draw_succeeds|].
  destruct c as [| | icons name level children | icons name]; try exact I;
    cbn [drawable] in Hd; apply andb_prop in Hd as [H Hd].
  - rewrite (draw_rectangle_container _ _ _ _ _ _ _ _ H), fst_print_bind.
    repeat split.
    + intros -> Hw. unfold top_edge. now rewrite str_mul_clamp by lia.
    + intros -> Hw. unfold branch_edge. now rewrite str_mul_clamp by lia.
    + intros -> Hw. rewrite fst_bind, snd_for_enumerate.
      * cbn [print fst]. rewrite app_comm_cons, last_last.
        unfold bottom_edge. now rewrite str_mul_clamp by lia.
      * rewrite forallb_forall in Hd. apply Forall_forall.
        intros child Hchild i. apply draw_succeeds, Hd, Hchild.
  - intros name_len Hlen Hw.
    rewrite (draw_rectangle_leaf _ _ _ _ _ _ H), Hlen, bind_lift_Ok.
    unfold leaf_line. now rewrite str_mul_clamp by lia.
Qed.

(** ** display_tree *)

Lemma build_entry_container key value factory level t :
  build_entry key value factory level = Ok t ->
  exists children, t = create_container factory key level children.
Proof.
  destruct value as [| b | n | bits | s0 | items | items]; cbn [build_entry];
    try (intros [= <-]; eexists; reflexivity);
    match goal with
    | |- rbind ?r _ = _ -> _ => destruct r as [children|e]
    end; cbn [rbind]; intros [= <-]; now exists children.
Qed.

(** Every root of the forest is a container of the factory, at level 0. *)
Lemma build_forest_containers items factory trees :
  build_forest items factory = Ok trees ->
  Forall (fun t => exists key children,
              t = create_container factory key 0 children) trees.
Proof.
  unfold build_forest. rewrite for_each_Ok.
  induction 1 as [|[key value] t items trees Ht _ IH]; constructor;
    [|exact IH].
  exists key. now apply (build_entry_container key value).
Qed.

Lemma for_enumerate_ext {A : Type} (body body' : Z -> A -> M unit) xs :
  forall i,
    (forall j x, i <= j < i + len xs -> body j x = body' j x) ->
    for_enumerate body i xs = for_enumerate body' i xs.
Proof.
  unfold len. induction xs as [|x xs IH]; intros i H; [reflexivity|].
  cbn [for_enumerate]. rewrite H by (simpl length; lia).
  apply bind_unit_ext, IH. intros j y Hj. apply H. simpl length. lia.
Qed.

Lemma for_enumerate_map {A : Type} (f : A -> M unit) xs :
  forall i, for_enumerate (fun _ x => f x) i xs = sequence (map f xs).
Proof.
  induction xs as [|x xs IH]; intros i; [reflexivity|].
  cbn [for_enumerate map sequence]. now rewrite IH.
Qed.


(** [display_tree] on a forest with a last root: every root is accepted by
    the visitor in turn, and under a Rectangle factory the last one is then
    drawn once more, with [is_bottom=True]. *)
Lemma display_tree_forest items factory ts t :
  build_forest items factory = Ok (ts ++ [t]) ->
  display_tree (JObj items) factory
  = (sequence (map accept ts) ;;
     accept t ;;
     (if is_rectangle_factory factory
      then draw t [] true (default_is_top t) true
      else ret tt)).
Proof.
  intros H. cbn [display_tree]. rewrite H, bind_lift_Ok, for_enumerate_app.
  rewrite (for_enumerate_ext _ (fun _ subtree => accept subtree)).
  - rewrite for_enumerate_map. apply bind_unit_ext.
    cbn [for_enumerate]. rewrite bind_ret_r.
    replace (0 + len ts =? len (ts ++ [t]) - 1) with true; [reflexivity|].
    symmetry. apply Z.eqb_eq. unfold len. rewrite length_app. simpl. lia.
  - intros j x Hj.
    replace (j =? len (ts ++ [t]) - 1) with false; [apply bind_ret_r|].
    symmetry. apply Z.eqb_neq. unfold len in *. rewrite length_app. simpl.
    lia.
Qed.


(** Drawing a Rectangle container with [is_bottom=True] is drawing it without
    and then printing the bottom edge. *)
Lemma draw_bottom icons name level children indent (is_last is_top : bool) :
  complete icons rectangle_roles = true ->
  draw (RectangleContainer icons name level children) indent is_last is_top
       true
  = (draw (RectangleContainer icons name level children) indent is_last is_top
          false ;;
     print (bottom_edge icons indent)).
Proof.
  intros H. rewrite !(draw_rectangle_container _ _ _ _ _ _ _ _ H).
  now rewrite bind_ret_r, !bind_assoc.
Qed.



(** ** One line per node *)

Lemma bind_lift_Raise {A B : Type} (e : exn) (k : A -> M B) :
  (x <- lift (Raise e) ;; k x) = ([], Raise e).
Proof. reflexivity. Qed.








(** ** What the code does where the specification says otherwise *)

(** The visitor draws a Rectangle root with [is_top] at its default, false:
    its first line is the branch edge. *)
Lemma accept_rectangle_root icons name level children :
  complete icons rectangle_roles = true ->
  hd_error (fst (accept (RectangleContainer icons name level children)))
  = Some (branch_edge icons [] name).
Proof.
  intros H. unfold accept. cbn [default_is_top].
  now rewrite (draw_rectangle_container _ _ _ _ _ _ _ _ H), fst_print_bind.
Qed.

(** C2: [display_tree] on [{"a": "b"}] under a Rectangle factory prints the
    branch edge of the root, not its top edge, as the first line (and, the
    root being the last one, the root twice before the bottom edge). *)
Theorem rectangle_root_gets_branch_edge :
  fst (display_tree (JObj single_item) (RectangleStyleFactory rectangle_icons))
  = [branch_edge rectangle_icons [] (lit "a");
     leaf_line rectangle_icons ([9474] ++ lit " ")%N (lit "a: b") 4;
     branch_edge rectangle_icons [] (lit "a");
     leaf_line rectangle_icons ([9474] ++ lit " ")%N (lit "a: b") 4;
     bottom_edge rectangle_icons []]
  /\ hd_error
       (fst (display_tree (JObj single_item)
                          (RectangleStyleFactory rectangle_icons)))
     <> Some (top_edge rectangle_icons [] (lit "a")).
Proof. split; [reflexivity|]. vm_compute. discriminate. Qed.

(** C3: the forest built from [{"a": [{"x": 1, "y": 2}]}] has one leaf for
    the two scalars of the document, and so has the forest built from
    [{"a": [[1, 2]]}]. *)
Theorem leaf_count_misses_scalars (factory : Factory) :
  (exists trees,
      build_forest two_key_item factory = Ok trees
      /\ list_sum (map leaf_count trees) = 1%nat
      /\ scalar_count (JObj two_key_item) = 2%nat)
  /\ (exists trees,
        build_forest nested_array factory = Ok trees
        /\ list_sum (map leaf_count trees) = 1%nat
        /\ scalar_count (JObj nested_array) = 2%nat).
Proof.
  split; eexists; (split; [reflexivity|]); destruct factory; now split.
Qed.

(** ** When build_tree returns *)

Lemma for_each_total {A B : Type} (body : A -> result B) xs :
  Forall (fun x => exists y, body x = Ok y) xs ->
  exists ys, for_each body xs = Ok ys.
Proof.
  induction 1 as [|x xs [y Hy] _ [ys Hys]]; [now exists []|].
  exists (y :: ys). cbn [for_each]. now rewrite Hy, Hys.
Qed.

Lemma build_returns (value : json) :
  (buildable value = true ->
   forall key factory level,
     exists t, build_entry key value factory level = Ok t)
  /\ (item_ok value = true ->
      forall factory level, exists t, build_tree value factory level = Ok t).
Proof.
  induction value as [| b | n | bits | s0 | items IH | items IH]
                       using json_nested_ind;
    try (split; intros _; intros; eexists; reflexivity).
  - split; [|intros _; intros; eexists; reflexivity].
    cbn [buildable]. rewrite forallb_forall. intros Hb key factory level.
    cbn [build_entry].
    destruct (for_each_total
                (fun item =>
                   if is_dict item || is_list item
                   then build_tree item factory (level + 1)
                   else Ok (create_leaf factory item)) items) as [cs Hcs].
    { rewrite Forall_forall in *. intros item Hin.
      destruct (is_dict item || is_list item); [|eexists; reflexivity].
      apply (IH item Hin). apply (Hb item Hin). }
    exists (create_container factory key level cs).
    change (rbind
              (for_each
                 (fun item =>
                    if is_dict item || is_list item
                    then build_tree item factory (level + 1)
                    else Ok (create_leaf factory item)) items)
              (fun children =>
                 Ok (create_container factory key level children))
            = Ok (create_container factory key level cs)).
    now rewrite Hcs.
  - split.
    + cbn [buildable]. rewrite forallb_forall. intros Hb key factory level.
      cbn [build_entry].
      destruct (for_each_total
                  (fun kv : str * json =>
                     let (subkey, subvalue) := kv in
                     if is_dict subvalue || is_list subvalue
                     then build_entry subkey subvalue factory (level + 1)
                     else Ok (create_leaf factory
                                (JStr (subkey ++ lit ": "
                                         ++ format_value subvalue)))) items)
        as [cs Hcs].
      { rewrite Forall_forall in *. intros [subkey subvalue] Hin.
        destruct (is_dict subvalue || is_list subvalue);
          [|eexists; reflexivity].
        apply (IH _ Hin). apply (Hb _ Hin). }
      exists (create_container factory key level cs).
      change (rbind
                (for_each
                   (fun kv : str * json =>
                      let (subkey, subvalue) := kv in
                      if is_dict subvalue || is_list subvalue
                      then build_entry subkey subvalue factory (level + 1)
                      else Ok (create_leaf factory
                                 (JStr (subkey ++ lit ": "
                                          ++ format_value subvalue)))) items)
                (fun children =>
                   Ok (create_container factory key level children))
              = Ok (create_container factory key level cs)).
      now rewrite Hcs.
    + destruct items as [|[key value] rest]; [discriminate|].
      cbn [item_ok]. intros Hb factory level.
      inversion IH as [|? ? [Hvalue _] _]; subst.
      apply (Hvalue Hb key factory level).
Qed.


(** ** Leaves and scalars *)

Lemma leaf_count_container factory key level children :
  leaf_count (create_container factory key level children)
  = list_sum (map leaf_count children).
Proof. now destruct factory. Qed.

Lemma leaf_count_leaf factory name : leaf_count (create_leaf factory name) = 1%nat.
Proof. now destruct factory. Qed.

Lemma Forall2_under {A B : Type} (P : A -> Prop) (R R' : A -> B -> Prop) xs ys :
  Forall P xs ->
  (forall x y, P x -> R x y -> R' x y) ->
  Forall2 R xs ys -> Forall2 R' xs ys.
Proof.
  intros HP Himp H. induction H as [|x y xs ys Hxy _ IH]; constructor.
  - apply Himp; [now inversion HP | exact Hxy].
  - apply IH. now inversion HP.
Qed.

Lemma list_sum_Forall2 {A B : Type} (f : A -> nat) (g : B -> nat) xs ys :
  Forall2 (fun x y => g y = f x) xs ys ->
  list_sum (map g ys) = list_sum (map f xs).
Proof. induction 1 as [|x y xs ys Hxy _ IH]; simpl; congruence. Qed.

Lemma Forall_forallb {A : Type} (P : A -> Prop) (check : A -> bool) xs :
  Forall P xs -> forallb check xs = true ->
  Forall (fun x => P x /\ check x = true) xs.
Proof.
  rewrite forallb_forall, !Forall_forall. intros HP Hc x Hin.
  split; [now apply HP | now apply Hc].
Qed.

Lemma leaves_are_scalars (value : json) :
  (regular value = true ->
   forall key factory level t,
     build_entry key value factory level = Ok t ->
     leaf_count t = scalar_count value)
  /\ (regular_item value = true ->
      forall factory level t,
        build_tree value factory level = Ok t ->
        leaf_count t = scalar_count value).
Proof.
  induction value as [| b | n | bits | s0 | items IH | items IH]
                       using json_nested_ind;
    try (split; intros _; intros; cbn in *;
         match goal with H : Ok _ = Ok _ |- _ => injection H as <- end;
         rewrite ?leaf_count_container; cbn [map list_sum];
         rewrite leaf_count_leaf; reflexivity).
  - split; [|discriminate].
    cbn [regular]. intros Hr key factory level t. cbn [build_entry].
    match goal with
    | |- rbind ?r _ = _ -> _ => destruct r as [cs|e] eqn:Hcs
    end; cbn [rbind]; [|discriminate]. intros [= <-].
    rewrite leaf_count_container. cbn [scalar_count].
    apply list_sum_Forall2. apply for_each_Ok in Hcs.
    eapply Forall2_under; [exact (Forall_forallb _ _ _ IH Hr)| |exact Hcs].
    intros item c [[_ Hitem] Hreg]. cbv beta.
    destruct item as [| b | n | bits | s0 | items' | items']; cbn;
      try discriminate;
      try (intros [= <-]; apply leaf_count_leaf).
    apply Hitem, Hreg.
  - split.
    + cbn [regular]. intros Hr key factory level t. cbn [build_entry].
      match goal with
      | |- rbind ?r _ = _ -> _ => destruct r as [cs|e] eqn:Hcs
      end; cbn [rbind]; [|discriminate]. intros [= <-].
      rewrite leaf_count_container. cbn [scalar_count].
      apply list_sum_Forall2. apply for_each_Ok in Hcs.
      eapply Forall2_under; [exact (Forall_forallb _ _ _ IH Hr)| |exact Hcs].
      intros [subkey subvalue] c [[Hvalue _] Hreg]. cbn [snd] in *.
      destruct (is_dict subvalue || is_list subvalue) eqn:Hkind.
      * apply Hvalue, Hreg.
      * intros [= <-]. rewrite leaf_count_leaf.
        now destruct subvalue.
    + destruct items as [|[key value] [|other rest]]; try discriminate.
      cbn [regular_item]. intros Hr factory level t Ht.
      inversion IH as [|? ? [Hvalue _] _]; subst. cbn [snd] in Hvalue.
      rewrite (Hvalue Hr key factory level t Ht). simpl. lia.
Qed.

(** X15: off the array items that are arrays or dicts of other than one key,
    the forest has one leaf per scalar of the document. *)
Lemma leaf_count_regular items factory trees :
  regular (JObj items) = true ->
  build_forest items factory = Ok trees ->
  list_sum (map leaf_count trees) = scalar_count (JObj items).
Proof.
  cbn [regular scalar_count]. intros Hr Hb.
  apply list_sum_Forall2. apply for_each_Ok in Hb.
  rewrite forallb_forall in Hr.
  eapply Forall2_under; [apply Forall_forall; exact Hr| |exact Hb].
  intros [key value] t Hvalue Ht. cbn [snd] in *.
  apply (proj1 (leaves_are_scalars value) Hvalue key factory 0 t Ht).
Qed.

(** * Further properties of the program *)

(** ** What build_tree keeps *)

Lemma Forall2_Forall_r {A B : Type} (P : A -> Prop) (R : A -> B -> Prop)
      (Q : B -> Prop) xs ys :
  Forall P xs ->
  (forall x y, P x -> R x y -> Q y) ->
  Forall2 R xs ys -> Forall Q ys.
Proof.
  intros HP Himp H. induction H as [|x y xs ys Hxy _ IH]; constructor.
  - apply (Himp x y); [now inversion HP | exact Hxy].
  - apply IH. now inversion HP.
Qed.

(** A property of components that holds of the factory's leaves (for the
    names that pass [ok]) and passes from children to their container holds
    of everything [build_tree] returns. *)
Lemma build_invariant (ok : json -> bool) (Q : Z -> Component -> Prop)
      (factory : Factory) :
  (forall s, ok (JStr s) = true) ->
  (forall level name, ok name = true -> Q level (create_leaf factory name)) ->
  (forall level key children,
      Forall (Q (level + 1)) children ->
      Q level (create_container factory key level children)) ->
  forall value,
    (raw_names_ok ok value = true ->
     forall key level t,
       build_entry key value factory level = Ok t -> Q level t)
    /\ (raw_item_ok ok value = true ->
        forall level t, build_tree value factory level = Ok t -> Q level t).
Proof.
  intros Hstr Hleaf Hcont.
  induction value as [| b | n | bits | s0 | items IH | items IH]
                       using json_nested_ind;
    try (split;
         [intros _ key level t; cbn [build_entry]; intros [= <-];
          apply Hcont; constructor; [apply Hleaf, Hstr | constructor]
         |intros Hok level t; cbn [build_tree]; intros [= <-];
          apply Hleaf, Hok]).
  - split.
    + cbn [raw_names_ok]. intros Hr key level t. cbn [build_entry].
      match goal with
      | |- rbind ?r _ = _ -> _ => destruct r as [cs|e] eqn:Hcs
      end; cbn [rbind]; [|discriminate]. intros [= <-].
      apply Hcont. apply for_each_Ok in Hcs.
      eapply Forall2_Forall_r; [exact (Forall_forallb _ _ _ IH Hr)| |exact Hcs].
      intros item c [[_ Hitem] Hcheck]. cbv beta.
      destruct (is_dict item || is_list item) eqn:Hkind.
      * apply Hitem, Hcheck.
      * intros [= <-]. apply Hleaf.
        destruct item; try discriminate Hkind; exact Hcheck.
    + intros Hok level t. cbn [build_tree]. intros [= <-]. apply Hleaf, Hok.
  - split.
    + cbn [raw_names_ok]. intros Hr key level t. cbn [build_entry].
      match goal with
      | |- rbind ?r _ = _ -> _ => destruct r as [cs|e] eqn:Hcs
      end; cbn [rbind]; [|discriminate]. intros [= <-].
      apply Hcont. apply for_each_Ok in Hcs.
      eapply Forall2_Forall_r; [exact (Forall_forallb _ _ _ IH Hr)| |exact Hcs].
      intros [subkey subvalue] c [[Hvalue _] Hcheck]. cbn [snd] in *.
      destruct (is_dict subvalue || is_list subvalue).
      * apply Hvalue, Hcheck.
      * intros [= <-]. apply Hleaf, Hstr.
    + destruct items as [|[key value] rest]; [discriminate 2|].
      cbn [raw_item_ok]. intros Hr level t Ht.
      inversion IH as [|? ? [Hvalue _] _]; subst.
      apply (Hvalue Hr key level t Ht).
Qed.

Lemma raw_names_ok_always (value : json) :
  raw_names_ok (fun _ => true) value = true
  /\ raw_item_ok (fun _ => true) value = true.
Proof.
  induction value as [| b | n | bits | s0 | items IH | items IH]
                       using json_nested_ind; try (now split).
  - split; [|reflexivity]. cbn [raw_names_ok]. apply forallb_forall.
    rewrite Forall_forall in IH. intros item Hin. apply (IH item Hin).
  - assert (Hall : raw_names_ok (fun _ => true) (JObj items) = true).
    { cbn [raw_names_ok]. apply forallb_forall.
      rewrite Forall_forall in IH. intros kv Hin. apply (IH kv Hin). }
    split; [exact Hall|].
    destruct items as [|[key value] rest]; [reflexivity|].
    cbn [raw_item_ok]. inversion IH as [|? ? [Hvalue _] _]; subst.
    exact Hvalue.
Qed.

(** X3: whatever [build_tree] returns is made of the factory's own classes
    with the factory's icons, at every node. *)
Theorem build_tree_made_by data factory level t :
  build_tree data factory level = Ok t -> made_by factory t.
Proof.
  apply (proj2 (build_invariant (fun _ => true) (fun _ => made_by factory)
                  factory (fun _ => eq_refl)
                  (fun _ name _ => made_leaf factory name)
                  (fun level key children H =>
                     made_container factory key level children H)
                  data)).
  apply raw_names_ok_always.
Qed.

(** X4: in the tree [build_tree] returns at [level], a container one step
    further down has a level one higher, all the way. *)
Theorem build_tree_levelled data factory level t :
  build_tree data factory level = Ok t -> levelled level t = true.
Proof.
  assert (Hleaf : forall (l : Z) name,
             (fun _ : json => true) name = true ->
             levelled l (create_leaf factory name) = true)
    by now destruct factory.
  assert (Hcont : forall l key children,
             Forall (fun c => levelled (l + 1) c = true) children ->
             levelled l (create_container factory key l children) = true).
  { intros l key children H.
    assert (Hall : forallb (levelled (l + 1)) children = true).
    { apply forallb_forall. rewrite Forall_forall in H. exact H. }
    destruct factory; cbn [create_container levelled];
      now rewrite Z.eqb_refl, Hall. }
  apply (proj2 (build_invariant (fun _ => true)
                  (fun l c => levelled l c = true) factory
                  (fun _ => eq_refl) Hleaf Hcont data)).
  apply raw_names_ok_always.
Qed.

(** X1: [display_tree] builds one root per top-level item, in the order of
    the items: the root of an item is the factory's container named by the
    item's key, at level 0. *)
Theorem build_forest_roots items factory trees :
  build_forest items factory = Ok trees ->
  Forall2 (fun kv t =>
             exists children,
               t = create_container factory (fst kv) 0 children)
          items trees.
Proof.
  unfold build_forest. rewrite for_each_Ok. intros H.
  eapply Forall2_impl; [|exact H].
  intros [key value] t Ht. cbn [fst].
  now apply (build_entry_container key value factory 0).
Qed.

(** ** When build_tree raises *)

Lemma forallb_false_In {A : Type} (check : A -> bool) xs :
  forallb check xs = false -> exists x, In x xs /\ check x = false.
Proof.
  induction xs as [|x xs IH]; [discriminate|]. cbn [forallb].
  destruct (check x) eqn:Hx.
  - intros H. destruct (IH H) as (y & Hin & Hy). exists y. split; [now right|].
    exact Hy.
  - intros _. exists x. split; [now left | exact Hx].
Qed.

Lemma for_each_raises {A B : Type} (body : A -> result B) xs :
  (forall x e, In x xs -> body x = Raise e -> e = IndexError) ->
  (exists x, In x xs /\ body x = Raise IndexError) ->
  for_each body xs = Raise IndexError.
Proof.
  induction xs as [|x xs IH]; intros Hall (y & Hin & Hy); [destruct Hin|].
  cbn [for_each]. destruct (body x) as [b|e] eqn:Hx.
  - cbn [rbind]. rewrite IH; [reflexivity| |].
    + intros z e Hz. apply Hall. now right.
    + destruct Hin as [-> | Hin]; [congruence|]. now exists y.
  - cbn [rbind]. f_equal. apply (Hall x e); [now left | exact Hx].
Qed.

Lemma build_raises (value : json) :
  (buildable value = false ->
   forall key factory level,
     build_entry key value factory level = Raise IndexError)
  /\ (item_ok value = false ->
      forall factory level, build_tree value factory level = Raise IndexError).
Proof.
  induction value as [| b | n | bits | s0 | items IH | items IH]
                       using json_nested_ind;
    try (split; discriminate).
  - split; [|discriminate].
    cbn [buildable]. intros Hb key factory level. cbn [build_entry].
    rewrite for_each_raises; [reflexivity| |].
    + intros item e Hin. rewrite Forall_forall in IH.
      destruct (is_dict item || is_list item); [|discriminate].
      destruct (item_ok item) eqn:Hok.
      * destruct (proj2 (build_returns item) Hok factory (level + 1))
          as [t Ht]. congruence.
      * rewrite (proj2 (IH item Hin) Hok). congruence.
    + destruct (forallb_false_In _ _ Hb) as (item & Hin & Hcheck).
      exists item. split; [exact Hin|]. rewrite Forall_forall in IH.
      assert (Hkind : is_dict item || is_list item = true)
        by (destruct item; try discriminate Hcheck; reflexivity).
      rewrite Hkind. apply (IH item Hin), Hcheck.
  - split.
    + cbn [buildable]. intros Hb key factory level. cbn [build_entry].
      rewrite for_each_raises; [reflexivity| |].
      * intros [subkey subvalue] e Hin. rewrite Forall_forall in IH.
        destruct (is_dict subvalue || is_list subvalue); [|discriminate].
        destruct (buildable subvalue) eqn:Hok.
        -- destruct (proj1 (build_returns subvalue) Hok subkey factory
                       (level + 1)) as [t Ht]. congruence.
        -- rewrite (proj1 (IH _ Hin) Hok). congruence.
      * destruct (forallb_false_In _ _ Hb) as ([subkey subvalue] & Hin & Hcheck).
        exists (subkey, subvalue). split; [exact Hin|].
        rewrite Forall_forall in IH. cbn [snd] in Hcheck.
        assert (Hkind : is_dict subvalue || is_list subvalue = true)
          by (destruct subvalue; try discriminate Hcheck; reflexivity).
        rewrite Hkind. apply (IH _ Hin), Hcheck.
    + destruct items as [|[key value] rest]; [reflexivity|].
      cbn [item_ok]. intros Hb factory level.
      inversion IH as [|? ? [Hvalue _] _]; subst.
      apply (Hvalue Hb key factory level).
Qed.


(** X16: when one top-level value cannot be built, [display_tree] prints
    nothing at all, not even the roots before it, and ends with
    [IndexError]: every root is built before the first is drawn. *)
Theorem display_tree_build_failure key value items factory :
  In (key, value) items ->
  buildable value = false ->
  display_tree (JObj items) factory = ([], Raise IndexError).
Proof.
  intros Hin Hb. cbn [display_tree]. unfold build_forest.
  rewrite for_each_raises; [reflexivity| |].
  - intros [k v] e _.
    change (build_tree (JObj [(k, v)]) factory 0)
      with (build_entry k v factory 0).
    destruct (buildable v) eqn:Hv.
    + destruct (proj1 (build_returns v) Hv k factory 0) as [t Ht]. congruence.
    + rewrite (proj1 (build_raises v) Hv). congruence.
  - exists (key, value). split; [exact Hin|].
    apply (proj1 (build_raises value) Hb).
Qed.

(** ** What draw prints, and where it stops *)

Lemma Forall_fst_bind {A B : Type} (P : str -> Prop) (m : M A) (k : A -> M B) :
  Forall P (fst m) ->
  (forall a, Forall P (fst (k a))) ->
  Forall P (fst (x <- m ;; k x)).
Proof.
  intros Hm Hk. rewrite fst_bind. destruct (snd m); [|exact Hm].
  apply Forall_app. split; [exact Hm | apply Hk].
Qed.

Lemma Forall_fst_for_enumerate {A : Type} (P : str -> Prop)
      (body : Z -> A -> M unit) xs :
  Forall (fun x => forall i, Forall P (fst (body i x))) xs ->
  forall i, Forall P (fst (for_enumerate body i xs)).
Proof.
  induction 1 as [|x xs Hx _ IH]; intros i; [constructor|].
  cbn [for_enumerate]. apply Forall_fst_bind; [apply Hx | intros _; apply IH].
Qed.

(** Takes a goal on the lines of a draw apart, bind by bind. *)
Ltac lines_of_draw children_case :=
  repeat match goal with
         | |- Forall _ (fst (bind _ _)) => apply Forall_fst_bind; [|intros ?]
         | |- Forall _ (fst (lift _)) => apply Forall_nil
         | |- Forall _ (fst (ret _)) => apply Forall_nil
         | |- Forall _ (fst (print _)) =>
             apply Forall_cons; [eexists; reflexivity | apply Forall_nil]
         | |- Forall _ (fst (if ?b then _ else _)) => destruct b
         | |- Forall _ (fst (for_enumerate _ _ _)) =>
             apply Forall_fst_for_enumerate; children_case
         end.

(** X10: no line of a draw, in either style and whether or not the draw gets
    to its end, starts left of the indent the draw was given. *)
Theorem draw_lines_start_with_indent (c : Component) :
  forall indent is_last is_top is_bottom,
    Forall (fun line => exists rest, line = indent ++ rest)
           (fst (draw c indent is_last is_top is_bottom)).
Proof.
  induction c as [icons name level children IH | icons name |
                  icons name level children IH | icons name]
                   using Component_nested_ind;
    intros indent is_last is_top is_bottom; cbn [draw];
    lines_of_draw
      ltac:(eapply Forall_impl; [|exact IH]; intros child Hchild i;
            cbv beta; eapply Forall_impl; [|apply Hchild];
            intros line [rest ->]; rewrite <- app_assoc;
            eexists; reflexivity).
Qed.

Lemma getitem_Raise {V : Type} (d : list (str * V)) (k : str) (e : exn) :
  getitem d k = Raise e -> e = KeyError k.
Proof.
  induction d as [|[k' v] d IH]; cbn [getitem]; [congruence|].
  destruct (str_eqb k' k); [discriminate | exact IH].
Qed.

(** Settles the next glyph lookup of [RectangleContainer.draw]: a missing
    role ends the draw, a present one lets it go on. *)
Ltac need_glyph :=
  match goal with
  | |- exists role, _ /\ _ /\
                    (x <- lift (getitem ?icons (lit ?r)) ;; _) = _ =>
      let E := fresh "E" in
      destruct (getitem icons (lit r)) as [?|?] eqn:E;
      [rewrite bind_lift_Ok
      |exists r; split; [simpl; tauto|];
       split; [unfold has_role; now rewrite E|];
       apply getitem_Raise in E; subst; reflexivity]
  end.

(** [RectangleContainer.draw] reads its eight glyphs before it prints: when
    one of them is missing nothing is printed and the draw ends with the
    [KeyError] of a missing role. *)
Lemma rectangle_container_needs_all_glyphs icons name level children indent
      (is_last is_top is_bottom : bool) :
  complete icons rectangle_container_roles = false ->
  exists role,
    In role rectangle_container_roles
    /\ has_role icons role = false
    /\ draw (RectangleContainer icons name level children) indent is_last
            is_top is_bottom
       = ([], Raise (KeyError (lit role))).
Proof.
  intros H. cbn [draw]. do 8 need_glyph.
  unfold complete, has_role in H. cbn [forallb rectangle_container_roles] in H.
  now rewrite E, E0, E1, E2, E3, E4, E5, E6 in H.
Qed.

(** X6: under a Rectangle factory whose icon family lacks one of the eight
    glyphs of a container, the bottom corners included although the first
    draw of a root prints no bottom edge, [display_tree] on a document with
    at least one root prints nothing and ends with the [KeyError] of a
    missing role. *)
Theorem rectangle_display_needs_all_glyphs icons items t ts :
  complete icons rectangle_container_roles = false ->
  build_forest items (RectangleStyleFactory icons) = Ok (t :: ts) ->
  exists role,
    In role rectangle_container_roles
    /\ has_role icons role = false
    /\ display_tree (JObj items) (RectangleStyleFactory icons)
       = ([], Raise (KeyError (lit role))).
Proof.
  intros H Hb. cbn [display_tree]. rewrite Hb, bind_lift_Ok.
  apply build_forest_containers in Hb.
  inversion Hb as [|? ? (key & children & ->) _]; subst.
  cbn [for_enumerate create_container]. unfold accept. cbn [default_is_top].
  destruct (rectangle_container_needs_all_glyphs icons key 0 children []
              true false false H) as (role & Hin & Hrole & Hdraw).
  exists role. split; [exact Hin|]. split; [exact Hrole|].
  now rewrite Hdraw.
Qed.

(** X7: [TreeContainer.draw] reads [vertical_line] only after it has printed
    its own line, and only when it is not a last sibling: without that glyph
    a container that is not last prints its line and ends with [KeyError],
    its children undrawn, while a childless last sibling is drawn in full. *)
Theorem tree_container_vertical_line icons name level children indent
        (is_top is_bottom : bool) :
  has_role icons "vertical_line" = false ->
  (has_role icons "branch_icon" = true ->
   draw (TreeContainer icons name level children) indent false is_top
        is_bottom
   = ([indent ++ glyph icons "branch_icon" ++ lit " " ++ name],
      Raise (KeyError (lit "vertical_line"))))
  /\ (has_role icons "last_branch_icon" = true ->
      draw (TreeContainer icons name level []) indent true is_top is_bottom
      = ([indent ++ glyph icons "last_branch_icon" ++ lit " " ++ name],
         Ok tt)).
Proof.
  unfold has_role, glyph. intros Hv. split; intros Hb; cbn [draw].
  - destruct (getitem icons (lit "branch_icon")) as [g|]; [|discriminate].
    destruct (getitem icons (lit "vertical_line")) as [|e] eqn:E;
      [discriminate|].
    apply getitem_Raise in E. subst e. reflexivity.
  - destruct (getitem icons (lit "last_branch_icon")) as [g|]; [|discriminate].
    reflexivity.
Qed.

(** ** When display_tree gets to its end *)








(** X8: under a Rectangle factory an array that starts with [None], a
    [bool] or a number stops the drawing: the leaf is named by the item
    itself, [len] of it raises [TypeError], and [display_tree] ends there
    with the root's line as its whole output. *)
Theorem rectangle_scalar_item_raises icons key item rest :
  complete icons rectangle_roles = true ->
  has_len item = false ->
  buildable (JArr rest) = true ->
  display_tree (JObj [(key, JArr (item :: rest))]) (RectangleStyleFactory icons)
  = ([branch_edge icons [] key], Raise TypeError).
Proof.
  intros H Hitem Hrest.
  assert (Hkind : is_dict item || is_list item = false)
    by (destruct item; try discriminate Hitem; reflexivity).
  assert (Hlen : py_len item = Raise TypeError)
    by (destruct item; try discriminate Hitem; reflexivity).
  destruct (proj1 (build_returns (JArr rest)) Hrest key
              (RectangleStyleFactory icons) 0) as [t0 Ht0].
  cbn [build_entry] in Ht0.
  match type of Ht0 with
  | rbind ?r _ = _ => destruct r as [cs|e] eqn:Hcs
  end; [clear Ht0 | discriminate Ht0].
  assert (Hb : build_forest [(key, JArr (item :: rest))]
                            (RectangleStyleFactory icons)
               = Ok ([] ++ [RectangleContainer icons key 0
                              (RectangleLeaf icons item :: cs)])).
  { unfold build_forest. cbn [for_each build_tree build_entry].
    rewrite Hkind. cbn [rbind]. rewrite Hcs. reflexivity. }
  rewrite (display_tree_forest _ _ _ _ Hb). cbn [map sequence].
  rewrite bind_ret_l. unfold accept. cbn [default_is_top].
  rewrite (draw_rectangle_container _ _ _ _ _ _ _ _ H).
  cbn [for_enumerate]. rewrite (draw_rectangle_leaf _ _ _ _ _ _ H), Hlen.
  reflexivity.
Qed.

(** ** The forty columns of the Rectangle style *)

Lemma len_app {A : Type} (a b : list A) : len (a ++ b) = len a + len b.
Proof. unfold len. rewrite length_app. lia. Qed.

Lemma length_concat_repeat {A : Type} (s : list A) (k : nat) :
  length (concat (repeat s k)) = (k * length s)%nat.
Proof.
  induction k as [|k IH]; [reflexivity|].
  cbn [repeat concat]. rewrite length_app, IH. reflexivity.
Qed.

Lemma len_str_mul (s : str) (n : Z) :
  0 <= n -> len (str_mul s n) = len s * n.
Proof.
  intros Hn. unfold str_mul. destruct (Z.leb_spec n 0).
  - replace n with 0 by lia. unfold len. simpl. lia.
  - unfold len. rewrite (length_concat_repeat (s : list N)). lia.
Qed.

Lemma unit_glyph icons role :
  unit_glyphs icons = true -> In role rectangle_roles ->
  len (glyph icons role) = 1.
Proof.
  unfold unit_glyphs. rewrite forallb_forall. intros H Hin.
  apply Z.eqb_eq, H, Hin.
Qed.

(** Rewrites the width of every Rectangle glyph of the goal to one. *)
Ltac one_column Hu :=
  repeat match goal with
         | |- context [len (glyph ?icons ?role)] =>
             rewrite (unit_glyph icons role Hu) by (simpl; tauto)
         end.

(** X11: a Rectangle component whose names fit is drawn, as [display_tree]
    draws it (no top edge, no bottom edge), in lines of exactly forty code
    points each, at every depth. *)
Theorem rectangle_lines_are_forty_wide (c : Component) :
  forall indent is_last,
    in_box (len indent) c = true ->
    Forall (fun line => len line = 40)
           (fst (draw c indent is_last false false)).
Proof.
  induction c as [icons name level children IH | icons name |
                  icons name level children IH | icons name]
                   using Component_nested_ind;
    intros indent is_last Hbox; try discriminate Hbox.
  - cbn [in_box] in Hbox.
    apply andb_prop in Hbox as [Hbox Hchildren].
    apply andb_prop in Hbox as [Hbox Hfit].
    apply andb_prop in Hbox as [H Hu]. apply Z.leb_le in Hfit.
    rewrite (draw_rectangle_container _ _ _ _ _ _ _ _ H).
    apply Forall_fst_bind; [|intros _; apply Forall_fst_bind;
                                       [|intros _; constructor]].
    + constructor; [|constructor]. unfold branch_edge.
      rewrite !len_app, len_str_mul by lia. one_column Hu. lia.
    + apply Forall_fst_for_enumerate.
      eapply Forall_impl;
        [|exact (Forall_forallb _ _ _ IH Hchildren)].
      intros child [Hchild Hin] i. apply Hchild.
      rewrite !len_app. one_column Hu.
      replace (len indent + (1 + len (lit " "))) with (len indent + 2)
        by reflexivity.
      exact Hin.
  - destruct name as [| | | | s | |]; try discriminate Hbox.
    cbn [in_box] in Hbox.
    apply andb_prop in Hbox as [Hbox Hfit].
    apply andb_prop in Hbox as [H Hu]. apply Z.leb_le in Hfit.
    rewrite (draw_rectangle_leaf _ _ _ _ _ _ H). cbn [py_len].
    rewrite bind_lift_Ok. constructor; [|constructor].
    unfold leaf_line. cbn [format_value].
    rewrite !len_app, len_str_mul by lia. one_column Hu.
    change (len (lit " ")) with 1. lia.
Qed.

Lemma in_box_drawable (c : Component) :
  forall used, in_box used c = true -> drawable c = true.
Proof.
  induction c as [icons name level children IH | icons name |
                  icons name level children IH | icons name]
                   using Component_nested_ind;
    intros used Hbox; try discriminate Hbox.
  - cbn [in_box] in Hbox.
    apply andb_prop in Hbox as [Hbox Hchildren].
    apply andb_prop in Hbox as [Hbox _].
    apply andb_prop in Hbox as [H _].
    cbn [drawable]. rewrite H. apply forallb_forall.
    rewrite forallb_forall in Hchildren. rewrite Forall_forall in IH.
    intros child Hin. apply (IH child Hin (used + 2)), Hchildren, Hin.
  - destruct name as [| | | | s | |]; try discriminate Hbox.
    cbn [in_box] in Hbox.
    apply andb_prop in Hbox as [Hbox _].
    apply andb_prop in Hbox as [H _].
    cbn [drawable]. now rewrite H.
Qed.

(** X12: the bottom edge that closes such a container is the last line of
    its draw and is forty-two code points wide, two more than the lines of
    the box it closes. *)
Theorem rectangle_bottom_edge_is_wider icons name level children indent
        (is_last is_top : bool) :
  in_box (len indent) (RectangleContainer icons name level children) = true ->
  exists body,
    fst (draw (RectangleContainer icons name level children) indent is_last
              is_top true)
    = body ++ [bottom_edge icons indent]
    /\ len (bottom_edge icons indent) = 42.
Proof.
  intros Hbox.
  pose proof (in_box_drawable _ _ Hbox) as Hd.
  cbn [in_box] in Hbox.
  apply andb_prop in Hbox as [Hbox _].
  apply andb_prop in Hbox as [Hbox Hfit].
  apply andb_prop in Hbox as [H Hu]. apply Z.leb_le in Hfit.
  rewrite (draw_bottom _ _ _ _ _ _ _ H), fst_bind.
  rewrite (draw_succeeds _ Hd). cbn [print fst].
  eexists. split; [reflexivity|].
  unfold bottom_edge. rewrite !len_app, len_str_mul.
  - one_column Hu. lia.
  - unfold len in *. lia.
Qed.

(** ** Drawing order and the iterator *)

Lemma Forall2_fst_for_enumerate {A B : Type} (R : str -> B -> Prop)
      (body : Z -> A -> M unit) (nodes : A -> list B) xs :
  Forall (fun x => forall i, snd (body i x) = Ok tt
                             /\ Forall2 R (fst (body i x)) (nodes x)) xs ->
  forall i,
    snd (for_enumerate body i xs) = Ok tt
    /\ Forall2 R (fst (for_enumerate body i xs)) (flat_map nodes xs).
Proof.
  induction 1 as [|x xs Hx _ IH]; intros i; [split; [reflexivity|constructor]|].
  cbn [for_enumerate flat_map]. rewrite snd_bind, fst_bind.
  destruct (Hx i) as [Hs Hl]. destruct (IH (i + 1)) as [Hs' Hl'].
  rewrite Hs. split; [exact Hs'|]. now apply Forall2_app.
Qed.

Lemma tree_draw_preorder (c : Component) :
  tree_ready c = true ->
  forall indent is_last is_top is_bottom,
    snd (draw c indent is_last is_top is_bottom) = Ok tt
    /\ Forall2 (fun line node =>
                  exists prefix, line = prefix ++ lit " " ++ name_text node)
               (fst (draw c indent is_last is_top is_bottom)) (preorder c).
Proof.
  induction c as [icons name level children IH | icons name |
                  icons name level children IH | icons name]
                   using Component_nested_ind;
    intros Hr indent is_last is_top is_bottom; try discriminate Hr;
    cbn [tree_ready] in Hr.
  - apply andb_prop in Hr as [H Hchildren].
    rewrite (draw_tree_container _ _ _ _ _ _ _ _ H).
    rewrite snd_bind, fst_print_bind. cbn [print snd preorder].
    match goal with
    | |- context [for_enumerate ?body 0 children] =>
        destruct (Forall2_fst_for_enumerate
                    (fun line node =>
                       exists prefix,
                         line = prefix ++ lit " " ++ name_text node)
                    body preorder children) with (i := 0) as [Hs Hl]
    end.
    { eapply Forall_impl; [|exact (Forall_forallb _ _ _ IH Hchildren)].
      intros child [Hchild Hready] i. now apply Hchild. }
    split; [exact Hs|]. constructor; [|exact Hl].
    eexists. rewrite app_assoc. reflexivity.
  - rewrite (draw_tree_leaf _ _ _ _ _ _ Hr). split; [reflexivity|].
    constructor; [|constructor]. eexists. rewrite app_assoc. reflexivity.
Qed.

(** X13: a Tree-style draw prints its lines in the order in which the
    iterator yields the nodes: the i-th line ends with a space and the text
    of the i-th node of the pre-order sequence. *)
Theorem tree_draw_follows_iterator (c : Component) indent
        (is_last is_top is_bottom : bool) (fuel : nat) :
  tree_ready c = true ->
  exists yields,
    iterate (node_count c + fuel) [c] = Some yields
    /\ Forall2 (fun line node =>
                  exists prefix, line = prefix ++ lit " " ++ name_text node)
               (fst (draw c indent is_last is_top is_bottom)) yields.
Proof.
  intros Hr. exists (preorder c). split.
  - rewrite (iterate_stack (node_count c) [c] fuel).
    + simpl. now rewrite app_nil_r.
    + simpl. lia.
  - now apply tree_draw_preorder.
Qed.

Lemma leaves_of_preorder (c : Component) :
  length (filter is_leaf (preorder c)) = leaf_count c.
Proof.
  induction c as [icons name level children IH | |
                  icons name level children IH | ] using Component_nested_ind;
    try reflexivity;
    cbn [preorder filter is_leaf is_container negb leaf_count];
    induction IH as [|child rest Hc _ IHrest]; try reflexivity;
    cbn [flat_map map list_sum fold_right];
    rewrite filter_app, length_app, Hc; f_equal; exact IHrest.
Qed.

Lemma filter_leaf_container (l : list Component) :
  (length (filter is_container l) + length (filter is_leaf l))%nat = length l.
Proof.
  induction l as [|c l IH]; [reflexivity|].
  unfold is_leaf in *. simpl. destruct (is_container c); simpl; lia.
Qed.

(** X14: counting over the iterator counts the tree: of the components it
    yields, those that are not containers number [leaf_count] and the
    containers make up the rest of [node_count]. *)
Theorem iterator_counts_leaves (root : Component) (fuel : nat) :
  exists yields,
    iterate (node_count root + fuel) [root] = Some yields
    /\ length (filter is_leaf yields) = leaf_count root
    /\ (length (filter is_container yields) + leaf_count root)%nat
       = node_count root.
Proof.
  exists (preorder root). split; [|split].
  - rewrite (iterate_stack (node_count root) [root] fuel).
    + simpl. now rewrite app_nil_r.
    + simpl. lia.
  - apply leaves_of_preorder.
  - rewrite <- leaves_of_preorder, filter_leaf_container.
    apply length_preorder.
Qed.

(** ** Roots and levels in the drawing *)

(** X17: under a Tree factory every root is drawn as a last sibling, the
    roots before the last one too: the first line of each root is
    [last_branch_icon], a space and the top-level key. *)
Theorem tree_roots_drawn_as_last icons items trees :
  complete icons tree_roles = true ->
  build_forest items (TreeStyleFactory icons) = Ok trees ->
  Forall2 (fun kv t =>
             hd_error (fst (accept t))
             = Some (glyph icons "last_branch_icon" ++ lit " " ++ fst kv))
          items trees.
Proof.
  intros H. unfold build_forest. rewrite for_each_Ok. intros Hb.
  eapply Forall2_impl; [|exact Hb].
  intros [key value] t Ht. cbn [fst].
  destruct (build_entry_container key value _ 0 t Ht) as [children ->].
  cbn [create_container]. unfold accept.
  now rewrite (draw_tree_container _ _ _ _ _ _ _ _ H), fst_print_bind.
Qed.

Lemma for_enumerate_relevel (f : Z -> Z) (body : Z -> Component -> M unit)
      children :
  Forall (fun child => forall i, body i (relevel f child) = body i child)
         children ->
  forall i,
    for_enumerate body i (map (relevel f) children)
    = for_enumerate body i children.
Proof.
  induction 1 as [|child children Hc _ IH]; intros i; [reflexivity|].
  cbn [map for_enumerate]. now rewrite Hc, IH.
Qed.

Lemma default_is_top_relevel f c :
  default_is_top (relevel f c) = default_is_top c.
Proof. now destruct c. Qed.

(** Settles the next glyph lookup on both sides of an equation between two
    draws of the same node. *)
Ltac same_lookup :=
  match goal with
  | |- context [lift (getitem ?icons ?role)] =>
      destruct (getitem icons role) as [?|?];
      [rewrite !bind_lift_Ok | rewrite !bind_lift_Raise; reflexivity]
  end.

(** X18: no draw reads the level of a container: the component with its
    levels changed in any way is drawn line for line as before. *)
Theorem draw_ignores_level (f : Z -> Z) (c : Component) :
  forall indent is_last is_top is_bottom,
    draw (relevel f c) indent is_last is_top is_bottom
    = draw c indent is_last is_top is_bottom.
Proof.
  induction c as [icons name level children IH | icons name |
                  icons name level children IH | icons name]
                   using Component_nested_ind;
    intros indent is_last is_top is_bottom; try reflexivity;
    cbn [relevel draw]; unfold len; rewrite length_map.
  - destruct is_last; repeat same_lookup; rewrite ?bind_ret_l;
      apply bind_unit_ext, for_enumerate_relevel;
      (eapply Forall_impl; [|exact IH]); intros child Hchild i;
      cbv beta; now rewrite default_is_top_relevel, Hchild.
  - repeat same_lookup.
    rewrite (for_enumerate_relevel f _ children); [reflexivity|].
    eapply Forall_impl; [|exact IH]. intros child Hchild i. apply Hchild.
Qed.

(** ** main *)





End Program.

(** * The theorems at sample inputs *)

(** The three Tree-style scenarios of the specification. *)
Example scenario_1_lines :
  display_tree str_of_scalar (JObj scenario_1) (TreeStyleFactory tree_icons)
  = ([[9492; 9472; 9472]%N ++ lit " a";
      lit "   " ++ [9492; 9472; 9472]%N ++ lit " a: 1"], Ok tt).
Proof. reflexivity. Qed.

Example scenario_2_lines :
  display_tree str_of_scalar (JObj scenario_2) (TreeStyleFactory tree_icons)
  = ([[9492; 9472; 9472]%N ++ lit " a";
      lit "   " ++ [9500; 9472; 9472]%N ++ lit " 1";
      lit "   " ++ [9492; 9472; 9472]%N ++ lit " 2"], Ok tt).
Proof. reflexivity. Qed.

Example scenario_3_lines :
  display_tree str_of_scalar (JObj scenario_3) (TreeStyleFactory tree_icons)
  = ([[9492; 9472; 9472]%N ++ lit " a"], Ok tt).
Proof. reflexivity. Qed.

(** Under a Rectangle factory the leaves of [{"a": [1, 2]}] are named by
    numbers, and the draw stops at [len] of the first one. *)
Example scenario_2_rectangle :
  display_tree str_of_scalar (JObj scenario_2)
               (RectangleStyleFactory rectangle_icons)
  = ([branch_edge rectangle_icons [] (lit "a")], Raise TypeError).
Proof. reflexivity. Qed.


Lemma rectangle_draw_clamps_width_witness :
  drawable wide_container = true
  /\ snd (draw str_of_scalar wide_container (repeat 32%N 41) true true true)
     = Ok tt
  /\ hd_error
       (fst (draw str_of_scalar wide_container (repeat 32%N 41) true true true))
     = Some (repeat 32%N 41 ++ glyph rectangle_icons "top_left_corner"
               ++ repeat 98%N 45 ++ glyph rectangle_icons "top_right_corner")
  /\ last (fst (draw str_of_scalar wide_container (repeat 32%N 41) true true
                     true)) []
     = repeat 32%N 41 ++ glyph rectangle_icons "bottom_left_corner"
         ++ glyph rectangle_icons "bottom_right_corner"
  /\ fst (draw str_of_scalar wide_leaf [] true true false)
     = [[] ++ glyph rectangle_icons "leaf_icon" ++ lit " " ++ repeat 97%N 50
           ++ glyph rectangle_icons "left_branch_icon"].
Proof.
  destruct (rectangle_draw_clamps_width str_of_scalar wide_container
              (repeat 32%N 41) true true true eq_refl)
    as (Hdone & Htop & _ & Hbottom).
  destruct (rectangle_draw_clamps_width str_of_scalar wide_leaf
              [] true true false eq_refl) as (_ & Hleaf).
  split; [reflexivity|]. split; [exact Hdone|]. split; [|split].
  - apply Htop; [reflexivity|]. unfold len. simpl. lia.
  - apply Hbottom; [reflexivity|]. unfold len. simpl. lia.
  - apply (Hleaf 50); [reflexivity|]. unfold len. simpl. lia.
Defined.



(** * The further properties at sample inputs *)

Lemma build_forest_roots_witness :
  Forall2 (fun kv t =>
             exists children,
               t = create_container (RectangleStyleFactory rectangle_icons)
                                    (fst kv) 0 children)
          sample_items [sample_first_root; sample_last_root].
Proof.
  apply (build_forest_roots str_of_scalar sample_items
           (RectangleStyleFactory rectangle_icons)).
  reflexivity.
Defined.

Lemma build_tree_made_by_witness :
  exists t,
    build_tree str_of_scalar deep_document (TreeStyleFactory tree_icons) 0 = Ok t
    /\ made_by (TreeStyleFactory tree_icons) t.
Proof.
  eexists. split; [reflexivity|].
  apply (build_tree_made_by str_of_scalar deep_document
           (TreeStyleFactory tree_icons) 0).
  reflexivity.
Defined.

Lemma build_tree_levelled_witness :
  exists t,
    build_tree str_of_scalar deep_document (TreeStyleFactory tree_icons) 0 = Ok t
    /\ levelled 0 t = true.
Proof.
  eexists. split; [reflexivity|].
  apply (build_tree_levelled str_of_scalar deep_document
           (TreeStyleFactory tree_icons) 0).
  reflexivity.
Defined.



Lemma rectangle_scalar_item_raises_witness :
  has_len (JInt 1) = false
  /\ display_tree str_of_scalar (JObj [(lit "a", JArr (JInt 1 :: [JInt 2]))])
                  (RectangleStyleFactory rectangle_icons)
     = ([branch_edge rectangle_icons [] (lit "a")], Raise TypeError).
Proof.
  split; [reflexivity|].
  apply (rectangle_scalar_item_raises str_of_scalar rectangle_icons (lit "a")
           (JInt 1) [JInt 2]);
    reflexivity.
Defined.

Lemma rectangle_display_needs_all_glyphs_witness :
  complete no_bottom_corners rectangle_container_roles = false
  /\ exists role,
       In role rectangle_container_roles
       /\ has_role no_bottom_corners role = false
       /\ display_tree str_of_scalar (JObj sample_items)
                       (RectangleStyleFactory no_bottom_corners)
          = ([], Raise (KeyError (lit role))).
Proof.
  split; [reflexivity|].
  apply (rectangle_display_needs_all_glyphs str_of_scalar no_bottom_corners
           sample_items
           (RectangleContainer no_bottom_corners (lit "x") 0
              [RectangleLeaf no_bottom_corners (JStr (lit "x: 1"))])
           [RectangleContainer no_bottom_corners (lit "y") 0
              [RectangleLeaf no_bottom_corners (JStr (lit "z: w"))]]);
    reflexivity.
Defined.

Lemma tree_container_vertical_line_witness :
  draw str_of_scalar
       (TreeContainer no_vertical_line (lit "a") 0
          [TreeLeaf no_vertical_line (JInt 1)])
       [] false true false
  = ([[] ++ glyph no_vertical_line "branch_icon" ++ lit " " ++ lit "a"],
     Raise (KeyError (lit "vertical_line")))
  /\ draw str_of_scalar (TreeContainer no_vertical_line (lit "a") 0 [])
          [] true true false
     = ([[] ++ glyph no_vertical_line "last_branch_icon" ++ lit " "
            ++ lit "a"], Ok tt).
Proof.
  split.
  - apply (tree_container_vertical_line str_of_scalar no_vertical_line
             (lit "a") 0 [TreeLeaf no_vertical_line (JInt 1)] [] true false
             eq_refl).
    reflexivity.
  - apply (tree_container_vertical_line str_of_scalar no_vertical_line
             (lit "a") 0 [] [] true false eq_refl).
    reflexivity.
Defined.

Lemma rectangle_lines_are_forty_wide_witness :
  in_box (len (@nil N)) sample_last_root = true
  /\ Forall (fun line => len line = 40)
            (fst (draw str_of_scalar sample_last_root [] true false false)).
Proof.
  split; [reflexivity|].
  apply (rectangle_lines_are_forty_wide str_of_scalar sample_last_root [] true).
  reflexivity.
Defined.

Lemma rectangle_bottom_edge_is_wider_witness :
  exists body,
    fst (draw str_of_scalar sample_last_root [] true false true)
    = body ++ [bottom_edge rectangle_icons []]
    /\ len (bottom_edge rectangle_icons []) = 42.
Proof.
  apply (rectangle_bottom_edge_is_wider str_of_scalar rectangle_icons (lit "y")
           0 [RectangleLeaf rectangle_icons (JStr (lit "z: w"))] [] true
           false).
  reflexivity.
Defined.

Lemma tree_draw_follows_iterator_witness :
  tree_ready sample_tree_last_root = true
  /\ exists yields,
       iterate (node_count sample_tree_last_root + 0) [sample_tree_last_root]
       = Some yields
       /\ Forall2 (fun line node =>
                     exists prefix,
                       line = prefix ++ lit " "
                                ++ name_text str_of_scalar node)
                  (fst (draw str_of_scalar sample_tree_last_root [] true true
                             false))
                  yields.
Proof.
  split; [reflexivity|].
  apply (tree_draw_follows_iterator str_of_scalar sample_tree_last_root []
           true true false 0).
  reflexivity.
Defined.

Lemma leaf_count_regular_witness :
  regular (JObj sample_items) = true
  /\ list_sum (map leaf_count [sample_first_root; sample_last_root])
     = scalar_count (JObj sample_items).
Proof.
  split; [reflexivity|].
  apply (leaf_count_regular str_of_scalar sample_items
           (RectangleStyleFactory rectangle_icons)
           [sample_first_root; sample_last_root]);
    reflexivity.
Defined.

Lemma display_tree_build_failure_witness :
  buildable (JArr [JObj []]) = false
  /\ display_tree str_of_scalar (JObj empty_dict_item)
                  (TreeStyleFactory tree_icons)
     = ([], Raise IndexError).
Proof.
  split; [reflexivity|].
  apply (display_tree_build_failure str_of_scalar (lit "a") (JArr [JObj []])
           empty_dict_item (TreeStyleFactory tree_icons));
    [left; reflexivity | reflexivity].
Defined.

Lemma tree_roots_drawn_as_last_witness :
  Forall2 (fun kv t =>
             hd_error (fst (accept str_of_scalar t))
             = Some (glyph tree_icons "last_branch_icon" ++ lit " " ++ fst kv))
          sample_items [sample_tree_first_root; sample_tree_last_root].
Proof.
  apply (tree_roots_drawn_as_last str_of_scalar tree_icons sample_items);
    reflexivity.
Defined.


